(** * GithubAgent: the agent orchestration layer, embedded from the source

    Shallow embedding of [src/agent.py] (tool handlers, context composer,
    result schema, history persistence), of the chat front end in
    [src/github_repo_assistant.py] and of the data access in
    [src/github_utils.py].

    Conventions of the embedding:
    - a Python call that may raise returns a [result]: [Ok v] or [Raise e];
      [try ... except Exception] is [try_except];
    - a Python [str] is a Rocq [string] holding its UTF-8 encoding, so that
      [x in y] is the occurrence of one byte string in the other; [str.lower]
      belongs to the interpreter and is a member of [PyRuntime], known to be
      the ASCII case mapping on ASCII text;
    - values whose Python type is not fixed by the caller (tool arguments
      driven by the model) are [PyVal];
    - the GitHub data-access functions of [github_utils] perform network I/O
      and are taken as an interface, [GithubUtils]; the GitHub client library
      under them is the interface [PyGithub];
    - the language model is an interface, [ModelBackend], that gives the
      final answers of the model; the run of the agent framework validates
      them against the result type and is [github_agent_run];
    - the serialisers of the conversation store are an interface,
      [MessageCodec]; [Pydantic] gives them for the messages of a
      conversation of this agent;
    - [logger] calls and [time.time()] measurements do not influence results
      or control flow and are left out. *)

From Stdlib Require Import Ascii String List ZArith Lia.
From Stdlib Require Import DecimalString DecimalPos DecimalZ.
From Stdlib Require QArith.
From stdpp Require Import base gmap strings.

Local Open Scope string_scope.

(** ** Exceptions and results *)

Inductive exn : Type :=
  | ValueError (msg : string)
  | AttributeError (msg : string)
  | AssertionError (msg : string)
  | ValidationError (msg : string)
  | OSError (msg : string)
  | JSONDecodeError (msg : string)
  | GithubException (msg : string)
  | ModelError (msg : string)
  | UnexpectedModelBehavior (msg : string).

Inductive result (A : Type) : Type :=
  | Ok (a : A)
  | Raise (e : exn).
Arguments Ok {A} a.
Arguments Raise {A} e.

Definition rbind {A B : Type} (r : result A) (k : A -> result B) : result B :=
  match r with
  | Ok a => k a
  | Raise e => Raise e
  end.

(** [try: body / except Exception as e: handler e] *)
Definition try_except {A : Type} (body : result A) (handler : exn -> result A)
  : result A :=
  match body with
  | Ok a => Ok a
  | Raise e => handler e
  end.

(** [except Exception as e: logger.error(...); raise] *)
Definition log_and_reraise {A : Type} (e : exn) : result A := Raise e.

(** [result] is a monad in the sense of stdpp: [x ← c; k] sequences two
    calls and stops at the first exception. *)
#[global] Instance result_ret : MRet result := fun _ a => Ok a.
#[global] Instance result_bind : MBind result := fun _ _ k r => rbind r k.

(** ** Python strings *)

Module PyString.

Definition is_upper (c : ascii) : bool :=
  let n := nat_of_ascii c in (65 <=? n)%nat && (n <=? 90)%nat.

Definition lower_char (c : ascii) : ascii :=
  if is_upper c then ascii_of_nat (nat_of_ascii c + 32) else c.

(** [s.lower()] for a text of ASCII characters: [A]..[Z] become [a]..[z]. *)
Fixpoint lower (s : string) : string :=
  match s with
  | EmptyString => EmptyString
  | String c rest => String (lower_char c) (lower rest)
  end.

(** [needle in hay] on strings: [needle] occurs at some offset of [hay]. *)
Fixpoint contains (needle hay : string) : bool :=
  String.prefix needle hay ||
  match hay with
  | EmptyString => false
  | String _ rest => contains needle rest
  end.

(** [s.split(sep)] for a one-character separator. *)
Fixpoint split (sep : ascii) (s : string) : list string :=
  match s with
  | EmptyString => [EmptyString]
  | String c rest =>
      if Ascii.eqb c sep then EmptyString :: split sep rest
      else match split sep rest with
           | w :: ws => String c w :: ws
           | [] => [String c EmptyString]
           end
  end.

(** [s.replace(old, new)] for one-character [old] and [new]. *)
Fixpoint replace (old new : ascii) (s : string) : string :=
  match s with
  | EmptyString => EmptyString
  | String c rest =>
      String (if Ascii.eqb c old then new else c) (replace old new rest)
  end.

(** Number of occurrences of a character. *)
Fixpoint count (c : ascii) (s : string) : nat :=
  match s with
  | EmptyString => 0
  | String d rest => (if Ascii.eqb d c then 1 else 0) + count c rest
  end.

(** The text holds ASCII characters only: every byte is below 128. *)
Fixpoint is_ascii (s : string) : bool :=
  match s with
  | EmptyString => true
  | String c rest => (nat_of_ascii c <? 128)%nat && is_ascii rest
  end.

(** The text with the given UTF-8 bytes. *)
Fixpoint utf8 (bytes : list nat) : string :=
  match bytes with
  | [] => EmptyString
  | b :: rest => String (ascii_of_nat b) (utf8 rest)
  end.

(** [str(n)] for a length, and for an [int]. *)
Definition of_nat (n : nat) : string := NilZero.string_of_uint (Nat.to_uint n).
Definition of_Z (z : Z) : string := NilZero.string_of_int (Z.to_int z).

End PyString.

(** ** Python values of unconstrained type

    Tool arguments are supplied by the model through the agent framework, or
    by a direct Python call; a parameter declared [str] can therefore hold
    [None], a string, or any other object, such as the [FieldInfo] marker
    that is the declared default of every tool parameter. *)

Inductive PyVal : Type :=
  | PyNone
  | PyStr (s : string)
  | PyInt (z : Z)
  | PyBool (b : bool)
  | PyObject (repr : string).

(** [isinstance(v, str)] *)
Definition is_str (v : PyVal) : bool :=
  match v with
  | PyStr _ => true
  | _ => false
  end.

(** [v is not None] *)
Definition is_not_none (v : PyVal) : bool :=
  match v with
  | PyNone => false
  | _ => true
  end.

(** [bool(v)], as used by [... if path else ...] *)
Definition truthy (v : PyVal) : bool :=
  match v with
  | PyNone => false
  | PyStr s => negb (String.eqb s "")
  | PyInt z => negb (Z.eqb z 0)
  | PyBool b => b
  | PyObject _ => true
  end.

(** [f"{v}"] *)
Definition py_format (v : PyVal) : string :=
  match v with
  | PyNone => "None"
  | PyStr s => s
  | PyInt z => PyString.of_Z z
  | PyBool true => "True"
  | PyBool false => "False"
  | PyObject repr => repr
  end.

(** The part of the Python interpreter the handlers rely on: [str.lower],
    which follows the Unicode case mappings (["É"] becomes ["é"], a final
    capital sigma becomes the final small sigma) and is the ASCII mapping on
    ASCII text. *)
Class PyRuntime : Type := {
  str_lower : string -> string;
  str_lower_ascii :
    forall s, PyString.is_ascii s = true -> str_lower s = PyString.lower s
}.

(** [type(v).__name__] *)
Definition py_type_name (v : PyVal) : string :=
  match v with
  | PyNone => "NoneType"
  | PyStr _ => "str"
  | PyInt _ => "int"
  | PyBool _ => "bool"
  | PyObject repr => repr
  end.

(** [v.lower()]: only [str] has the method. *)
Definition py_lower {rt : PyRuntime} (v : PyVal) : result string :=
  match v with
  | PyStr s => Ok (str_lower s)
  | _ => Raise (AttributeError ("'" ++ py_type_name v ++
                                "' object has no attribute 'lower'"))
  end.

(** The marker object that [Field(...)] evaluates to. *)
Definition FieldInfo : PyVal := PyObject "FieldInfo".

(** ** Data of the repository-data collaborator ([github_utils])

    The dictionaries built by [github_utils] have a fixed set of keys and are
    records here; [datetime] fields are kept in their printed form. *)

(** [GitHubDependencies]: the session context. *)
Record GitHubDependencies : Type := {
  token : string;
  repo_name : string
}.

Record RepoInfo : Type := {
  repo_short_name : string;
  full_name : string;
  description : option string;
  repo_html_url : string;
  ssh_url : string;
  clone_url : string;
  language : option string;
  private : bool;
  repo_created_at : string;
  updated_at : string;
  size : Z;
  stargazers_count : Z;
  forks_count : Z
}.

Record Issue : Type := {
  issue_number : Z;
  issue_title : string;
  issue_state : string;
  issue_html_url : string;
  issue_created_at : string;
  issue_updated_at : string;
  issue_user : string;
  issue_labels : list string;
  issue_comments : Z
}.

Record CommitStats : Type := {
  additions : Z;
  deletions : Z;
  total : Z
}.

Record Commit : Type := {
  sha : string;
  commit_html_url : string;
  commit_message : string;
  author : option string;
  committer : option string;
  commit_date : string;
  stats : CommitStats
}.

(** The dictionary returned for a path that is a single entry. *)
Record FileDict : Type := {
  file_name : string;
  file_path : string;
  file_type : string;
  file_size : Z;
  file_url : string;
  file_content : option string
}.

(** One element of the list returned for a directory. *)
Record EntryDict : Type := {
  entry_name : string;
  entry_path : string;
  entry_type : string;
  entry_size : Z;
  entry_url : string
}.

(** What [get_repository_content] returns: a [dict] or a [list]. *)
Inductive Content : Type :=
  | ContentDict (d : FileDict)
  | ContentList (l : list EntryDict).

(** The functions of [github_utils] that [agent.py] calls, with the
    arguments in the order of their definitions.  [state] and [path] are
    whatever the handler passes on. *)
Class GithubUtils : Type := {
  list_user_repositories : string -> string -> result (list RepoInfo);
  list_repository_issues : string -> PyVal -> string -> result (list Issue);
  list_repository_commits : string -> PyVal -> string -> result (list Commit);
  get_repository_content : string -> PyVal -> string -> result Content
}.

(** [datetime.now().strftime("%Y-%m-%d")] and [... ("%H:%M:%S")] *)
Class Clock : Type := {
  now_date : string;
  now_time : string
}.

(** ** Output models *)

Record IssueAnalysisResult : Type := {
  issues : list Issue;
  issues_summary : string
}.

Record CommitAnalysisResult : Type := {
  commits : list Commit;
  commits_summary : string
}.

(** ** Context composer: [repository_context] *)

Definition nl : string := String (ascii_of_nat 10) EmptyString.

(** [x or default] for an optional string. *)
Definition str_or (x : option string) (default : string) : string :=
  match x with
  | Some s => if String.eqb s "" then default else s
  | None => default
  end.

Definition minimal_instruction (repo_name : string) : string :=
  "You are currently answering questions about the repository: " ++ repo_name.

Definition enriched_instruction `{Clock} (repo_name : string) (repo_info : RepoInfo)
  : string :=
  nl ++
  "            if you need addtional information from the repository to answer the question here is the repository info" ++ nl ++
  "             " ++ nl ++
  "            Repository name: " ++ repo_name ++ nl ++
  "            Repository details:" ++ nl ++
  "            - Description: " ++ str_or (description repo_info) "No description provided" ++ nl ++
  "            - Primary language: " ++ str_or (language repo_info) "Not specified" ++ nl ++
  "            - Stars: " ++ PyString.of_Z (stargazers_count repo_info) ++ nl ++
  "            - Forks: " ++ PyString.of_Z (forks_count repo_info) ++ nl ++
  "            - Last updated: " ++ updated_at repo_info ++ nl ++
  "            " ++ nl ++
  nl ++
  nl ++
  "            today's date is " ++ now_date ++ " and the time now is " ++ now_time ++ nl ++
  "            ".

(** [username, repo = repo_name.split("/")] *)
Definition unpack2 (parts : list string) : result (string * string) :=
  match parts with
  | [a; b] => Ok (a, b)
  | [] => Raise (ValueError "not enough values to unpack (expected 2, got 0)")
  | [_] => Raise (ValueError "not enough values to unpack (expected 2, got 1)")
  | _ => Raise (ValueError "too many values to unpack (expected 2)")
  end.

Definition repository_context `{GithubUtils} `{Clock} (ctx : GitHubDependencies)
  : result string :=
  let repo_name := repo_name ctx in
  '(username, repo) ← unpack2 (PyString.split "/" repo_name);
  try_except
    (repos ← list_user_repositories (token ctx) username;
     let repo_info :=
       List.find (fun r => String.eqb (full_name r) repo_name) repos in
     match repo_info with
     | Some repo_info => Ok (enriched_instruction repo_name repo_info)
     | None => Ok (minimal_instruction repo_name)
     end)
    (fun e => Ok (minimal_instruction repo_name)).

(** ** Tool handlers *)

(** The guard that three of the handlers apply to an optional parameter:
    [if v is not None and not isinstance(v, str): v = default]. *)
Definition coerce_optional (v default : PyVal) : PyVal :=
  if is_not_none v && negb (is_str v) then default else v.

(** [list_issues]: [state] goes to the collaborator as received. *)
Definition list_issues `{GithubUtils} (ctx : GitHubDependencies) (state : PyVal)
  : result (list Issue) :=
  let repo_name := repo_name ctx in
  try_except
    (issues ← list_repository_issues repo_name state (token ctx);
     Ok issues)
    log_and_reraise.

(** The condition of the comprehension in [analyze_issues]. *)
Definition issue_matches {rt : PyRuntime} (query_lower : string) (issue : Issue)
  : bool :=
  PyString.contains query_lower (str_lower (issue_title issue)) ||
  existsb (fun label => PyString.contains query_lower (str_lower label))
          (issue_labels issue).

Definition issues_summary_text (n : nat) (query state : PyVal) : string :=
  if Nat.eqb n 0 then
    "No issues found matching '" ++ py_format query ++ "' with state '" ++
    py_format state ++ "'."
  else
    "Found " ++ PyString.of_nat n ++ " issues matching '" ++ py_format query ++
    "' with state '" ++ py_format state ++ "'.".

Definition analyze_issues `{GithubUtils} {rt : PyRuntime} (ctx : GitHubDependencies)
    (query state : PyVal) : result IssueAnalysisResult :=
  let repo_name := repo_name ctx in
  let state := coerce_optional state (PyStr "all") in
  try_except
    (issues ← list_repository_issues repo_name state (token ctx);
     query_lower ← py_lower query;
     let matching_issues := List.filter (issue_matches query_lower) issues in
     let summary := issues_summary_text (length matching_issues) query state in
     Ok {| issues := matching_issues; issues_summary := summary |})
    log_and_reraise.

Definition list_commits `{GithubUtils} (ctx : GitHubDependencies) (path : PyVal)
  : result (list Commit) :=
  let repo_name := repo_name ctx in
  let path := coerce_optional path PyNone in
  try_except
    (commits ← list_repository_commits repo_name path (token ctx);
     Ok commits)
    log_and_reraise.

(** The condition of the comprehension in [analyze_commits]. *)
Definition commit_matches {rt : PyRuntime} (query_lower : string)
    (commit : Commit) : bool :=
  PyString.contains query_lower (str_lower (commit_message commit)).

(** [(f" in path '{path}'" if path else "")] *)
Definition in_path_text (path : PyVal) : string :=
  if truthy path then " in path '" ++ py_format path ++ "'" else "".

Definition commits_summary_text (n : nat) (query path : PyVal) : string :=
  if Nat.eqb n 0 then
    "No commits found matching '" ++ py_format query ++ "'" ++ in_path_text path
  else
    "Found " ++ PyString.of_nat n ++ " commits matching '" ++ py_format query ++
    "'" ++ in_path_text path.

Definition analyze_commits `{GithubUtils} {rt : PyRuntime} (ctx : GitHubDependencies)
    (query path : PyVal) : result CommitAnalysisResult :=
  let repo_name := repo_name ctx in
  let path := coerce_optional path PyNone in
  try_except
    (commits ← list_repository_commits repo_name path (token ctx);
     query_lower ← py_lower query;
     let matching_commits := List.filter (commit_matches query_lower) commits in
     let summary := commits_summary_text (length matching_commits) query path in
     Ok {| commits := matching_commits; commits_summary := summary |})
    log_and_reraise.

(** [get_file_content]: the test
    [not isinstance(content, dict) or 'type' not in content or content['type'] != 'file'];
    every dictionary built by [get_repository_content] has the key ['type']. *)
Definition get_file_content `{GithubUtils} (ctx : GitHubDependencies) (path : PyVal)
  : result FileDict :=
  let repo_name := repo_name ctx in
  try_except
    (content ← get_repository_content repo_name path (token ctx);
     match content with
     | ContentDict d =>
         if String.eqb (file_type d) "file" then Ok d
         else Raise (ValueError ("Path '" ++ py_format path ++
                                 "' does not point to a file"))
     | ContentList _ =>
         Raise (ValueError ("Path '" ++ py_format path ++
                            "' does not point to a file"))
     end)
    log_and_reraise.

(** [list_directory_contents]: the test [not isinstance(contents, list)]. *)
Definition list_directory_contents `{GithubUtils} (ctx : GitHubDependencies)
    (path : PyVal) : result (list EntryDict) :=
  let repo_name := repo_name ctx in
  try_except
    (contents ← get_repository_content repo_name path (token ctx);
     match contents with
     | ContentList l => Ok l
     | ContentDict _ =>
         Raise (ValueError ("Path '" ++ py_format path ++
                            "' does not point to a directory"))
     end)
    log_and_reraise.

(** ** Result schema: [RepositoryAnalysisResult]

    [confidence] is a Python [float]; a finite float is a rational number and
    the comparisons with the bounds [0.0] and [1.0] involve no rounding, so
    the field is a [Q] here.  The payload to validate carries each field when
    it is present; [sources] has the default [list()]. *)

Record RepositoryAnalysisResult : Type := {
  answer : string;
  sources : list string;
  confidence : QArith_base.Q
}.

Record ResultPayload : Type := {
  payload_answer : option string;
  payload_sources : option (list string);
  payload_confidence : option QArith_base.Q
}.


Definition validate_result (p : ResultPayload) : result RepositoryAnalysisResult :=
  match payload_answer p with
  | None => Raise (ValidationError "answer: Field required")
  | Some a =>
      match payload_confidence p with
      | None => Raise (ValidationError "confidence: Field required")
      | Some c =>
          if QArith_base.Qle_bool (QArith_base.Qmake 0 1) c then
            if QArith_base.Qle_bool c (QArith_base.Qmake 1 1) then
              Ok {| answer := a;
                    sources := default [] (payload_sources p);
                    confidence := c |}
            else
              Raise (ValidationError
                       "confidence: Input should be less than or equal to 1")
          else
            Raise (ValidationError
                     "confidence: Input should be greater than or equal to 0")
      end
  end.

(** The language model behind the agent: the final answer it gives when it
    is asked for the [k]-th time in a run (the first time is number 0), or
    the exception that the request ends with. *)
Class ModelBackend : Type := {
  model_answer : string -> GitHubDependencies -> nat -> result ResultPayload
}.

(** The agent is built with [result_type=RepositoryAnalysisResult] and the
    default number of retries. *)
Definition result_retries : nat := 1.

(** [(await github_agent.run(query, deps=deps)).data]: the run validates the
    final answer of the model against the result type, asks the model again
    when the validation fails, and gives up with [UnexpectedModelBehavior]
    once the retries are used up. *)
Fixpoint run_attempts `{ModelBackend} (retries_left attempt : nat)
    (query : string) (deps : GitHubDependencies)
  : result RepositoryAnalysisResult :=
  p ← model_answer query deps attempt;
  match validate_result p with
  | Ok data => Ok data
  | Raise _ =>
      match retries_left with
      | S n => run_attempts n (S attempt) query deps
      | O =>
          Raise (UnexpectedModelBehavior
                   ("Exceeded maximum retries (" ++ PyString.of_nat result_retries ++
                    ") for result validation"))
      end
  end.

Definition github_agent_run `{ModelBackend} (query : string)
    (deps : GitHubDependencies) : result RepositoryAnalysisResult :=
  run_attempts result_retries 0 query deps.

(** [analyze_repository] returns [result.data] as the run gives it. *)
Definition analyze_repository `{ModelBackend} (query token repo_name : string)
  : result RepositoryAnalysisResult :=
  try_except
    (let deps := {| token := token; repo_name := repo_name |} in
     data ← github_agent_run query deps;
     Ok data)
    log_and_reraise.

(** ** Conversation store

    The file system is a finite map from locations to text, together with
    the set of locations that [open] refuses (missing directory, permission).
    A location is the path as it is spelled: two spellings of one file are
    not identified.  File operations thread the file system and may raise. *)

Record FileSystem : Type := {
  fs_files : gmap string string;
  fs_denied : gset string
}.

Definition IO (A : Type) : Type := FileSystem -> result A * FileSystem.

#[global] Instance io_ret : MRet IO := fun _ a fs => (Ok a, fs).
#[global] Instance io_bind : MBind IO := fun _ _ k m fs =>
  match m fs with
  | (Ok a, fs') => k a fs'
  | (Raise e, fs') => (Raise e, fs')
  end.

(** A call that does not touch the file system. *)
Definition io_lift {A : Type} (r : result A) : IO A := fun fs => (r, fs).

(** [try ... except Exception as e]: what the body did to the files before
    it raised stays done. *)
Definition io_try {A : Type} (body : IO A) (handler : exn -> IO A) : IO A :=
  fun fs =>
    match body fs with
    | (Ok a, fs') => (Ok a, fs')
    | (Raise e, fs') => handler e fs'
    end.

(** [os.path.exists(filename)] *)
Definition os_path_exists (filename : string) : IO bool :=
  fun fs => (Ok (bool_decide (is_Some (fs_files fs !! filename))), fs).

(** [open(filename, 'w')]: the file is created or truncated. *)
Definition open_w (filename : string) : IO unit :=
  fun fs =>
    if bool_decide (filename ∈ fs_denied fs) then
      (Raise (OSError "cannot open for writing"), fs)
    else
      (Ok tt, {| fs_files := <[filename := ""]> (fs_files fs);
                 fs_denied := fs_denied fs |}).

(** [f.write(text)] on a file opened by [open_w]. *)
Definition write_text (filename text : string) : IO unit :=
  fun fs =>
    (Ok tt, {| fs_files := <[filename := (default "" (fs_files fs !! filename) ++ text)%string]>
                             (fs_files fs);
               fs_denied := fs_denied fs |}).

(** [open(filename, 'r')] followed by reading the whole file. *)
Definition read_text (filename : string) : IO string :=
  fun fs =>
    if bool_decide (filename ∈ fs_denied fs) then
      (Raise (OSError "cannot open for reading"), fs)
    else
      match fs_files fs !! filename with
      | Some text => (Ok text, fs)
      | None => (Raise (OSError "No such file or directory"), fs)
      end.

(** The serialisation functions the store calls: [to_jsonable_python] of
    pydantic_core, [json.dump] and [json.load] of the standard library, and
    [ModelMessagesTypeAdapter.validate_python].  [json_dump] gives the text
    it wrote and the exception that stopped it, if any. *)
Class MessageCodec (ModelMessage Jsonable : Type) : Type := {
  to_jsonable_python : list ModelMessage -> result Jsonable;
  json_dump : Jsonable -> string * option exn;
  json_load : string -> result Jsonable;
  validate_python : Jsonable -> result (list ModelMessage)
}.

Section Store.
Context {ModelMessage Jsonable : Type} `{!MessageCodec ModelMessage Jsonable}.

Definition dump_to (filename : string) (serialized : Jsonable) : IO unit :=
  let '(text, err) := json_dump serialized in
  _ ← write_text filename text;
  match err with
  | Some e => io_lift (Raise e)
  | None => mret tt
  end.

Definition save_messages_to_json (messages : list ModelMessage) (filename : string)
  : IO unit :=
  io_try
    (serialized ← io_lift (to_jsonable_python messages);
     _ ← open_w filename;
     dump_to filename serialized)
    (fun e => mret tt).

Definition load_messages_from_json (filename : string) : IO (list ModelMessage) :=
  io_try
    (found ← os_path_exists filename;
     if negb found then mret []
     else
       text ← read_text filename;
       serialized ← io_lift (json_load text);
       messages ← io_lift (validate_python serialized);
       mret messages)
    (fun e => mret []).

End Store.

(** ** The serialisers of the conversation store

    [to_jsonable_python] of pydantic_core, [json.dump] and [json.load] of the
    standard library and the type adapter of [List[ModelMessage]], on the
    part of the message types that a conversation of this agent is made of:
    requests with user prompts and tool returns, responses with text and
    tool calls.  A [datetime] is known by its ISO 8601 text. *)

Module Pydantic.

#[local] Set Warnings "-register-all".

(** Python data as a tool returns it, and as a field of type [Any] holds it:
    a dictionary is the list of its items, whose keys are strings and
    distinct, and an instance of a pydantic model, such as
    [IssueAnalysisResult], the list of its fields. *)
Inductive PyData : Type :=
  | DNone
  | DBool (b : bool)
  | DInt (z : Z)
  | DStr (s : string)
  | DDatetime (iso : string)
  | DList (l : list PyData)
  | DDict (items : list (string * PyData))
  | DModel (fields : list (string * PyData)).

(** What JSON can hold. *)
Inductive Json : Type :=
  | JNull
  | JBool (b : bool)
  | JInt (z : Z)
  | JStr (s : string)
  | JList (l : list Json)
  | JDict (items : list (string * Json)).

#[local] Set Warnings "register-all".

(** [to_jsonable_python] on data: a [datetime] becomes its ISO text and a
    model instance the dictionary of its fields. *)
Fixpoint data_to_json (v : PyData) : Json :=
  match v with
  | DNone => JNull
  | DBool b => JBool b
  | DInt z => JInt z
  | DStr s => JStr s
  | DDatetime iso => JStr iso
  | DList l => JList (List.map data_to_json l)
  | DDict items =>
      JDict (List.map (fun kv => (fst kv, data_to_json (snd kv))) items)
  | DModel fields =>
      JDict (List.map (fun kv => (fst kv, data_to_json (snd kv))) fields)
  end.

(** Validation against [Any]: the value is kept as [json.load] gave it. *)
Fixpoint json_to_data (j : Json) : PyData :=
  match j with
  | JNull => DNone
  | JBool b => DBool b
  | JInt z => DInt z
  | JStr s => DStr s
  | JList l => DList (List.map json_to_data l)
  | JDict items =>
      DDict (List.map (fun kv => (fst kv, json_to_data (snd kv))) items)
  end.

(** [ModelRequestPart]: [timestamp] is a [datetime], [content] of a tool
    return is [Any]. *)
Inductive RequestPart : Type :=
  | UserPromptPart (content : string) (timestamp : string)
  | ToolReturnPart (tool_name : string) (content : PyData)
                   (tool_call_id : option string) (timestamp : string).

(** [ModelResponsePart] *)
Inductive ResponsePart : Type :=
  | TextPart (content : string)
  | ToolCallPart (tool_name : string) (args : string)
                 (tool_call_id : option string).

Inductive ModelMessage : Type :=
  | ModelRequest (parts : list RequestPart)
  | ModelResponse (parts : list ResponsePart) (timestamp : string).

Definition optional_to_json (o : option string) : Json :=
  match o with
  | Some s => JStr s
  | None => JNull
  end.

Definition request_part_to_json (p : RequestPart) : Json :=
  match p with
  | UserPromptPart content timestamp =>
      JDict [("content", JStr content); ("timestamp", JStr timestamp);
             ("part_kind", JStr "user-prompt")]
  | ToolReturnPart tool_name content tool_call_id timestamp =>
      JDict [("tool_name", JStr tool_name); ("content", data_to_json content);
             ("tool_call_id", optional_to_json tool_call_id);
             ("timestamp", JStr timestamp); ("part_kind", JStr "tool-return")]
  end.

Definition response_part_to_json (p : ResponsePart) : Json :=
  match p with
  | TextPart content =>
      JDict [("content", JStr content); ("part_kind", JStr "text")]
  | ToolCallPart tool_name args tool_call_id =>
      JDict [("tool_name", JStr tool_name); ("args", JStr args);
             ("tool_call_id", optional_to_json tool_call_id);
             ("part_kind", JStr "tool-call")]
  end.

Definition message_to_json (m : ModelMessage) : Json :=
  match m with
  | ModelRequest parts =>
      JDict [("parts", JList (List.map request_part_to_json parts));
             ("kind", JStr "request")]
  | ModelResponse parts timestamp =>
      JDict [("parts", JList (List.map response_part_to_json parts));
             ("timestamp", JStr timestamp); ("kind", JStr "response")]
  end.

(** [to_jsonable_python(messages)] *)
Definition to_jsonable_python (messages : list ModelMessage) : result Json :=
  Ok (JList (List.map message_to_json messages)).

(** *** Validation: [ModelMessagesTypeAdapter.validate_python]

    The messages are told apart by [kind] and their parts by [part_kind].
    [tool_call_id] is [None] when it is missing; a [timestamp] is required
    here, the store always writes it. *)

Fixpoint get_item (key : string) (items : list (string * Json)) : option Json :=
  match items with
  | [] => None
  | (k, v) :: rest => if String.eqb k key then Some v else get_item key rest
  end.

Definition field (key : string) (items : list (string * Json)) : result Json :=
  match get_item key items with
  | Some v => Ok v
  | None => Raise (ValidationError (key ++ ": Field required"))
  end.

Definition as_str (j : Json) : result string :=
  match j with
  | JStr s => Ok s
  | _ => Raise (ValidationError "Input should be a valid string")
  end.

Definition as_optional_str (j : Json) : result (option string) :=
  match j with
  | JNull => Ok None
  | JStr s => Ok (Some s)
  | _ => Raise (ValidationError "Input should be a valid string")
  end.

(** A field of type [str | None] with the default [None]. *)
Definition optional_field (key : string) (items : list (string * Json))
  : result (option string) :=
  match get_item key items with
  | Some v => as_optional_str v
  | None => Ok None
  end.

Definition as_list (j : Json) : result (list Json) :=
  match j with
  | JList l => Ok l
  | _ => Raise (ValidationError "Input should be a valid list")
  end.

Definition as_dict (j : Json) : result (list (string * Json)) :=
  match j with
  | JDict items => Ok items
  | _ => Raise (ValidationError "Input should be a valid dictionary")
  end.

(** Validation of each element of a list, stopping at the first error. *)
Fixpoint validate_each {A : Type} (validate : Json -> result A) (l : list Json)
  : result (list A) :=
  match l with
  | [] => Ok []
  | j :: rest =>
      a ← validate j;
      others ← validate_each validate rest;
      Ok (a :: others)
  end.

Definition validate_request_part (j : Json) : result RequestPart :=
  items ← as_dict j;
  part_kind ← field "part_kind" items ≫= as_str;
  if String.eqb part_kind "user-prompt" then
    content ← field "content" items ≫= as_str;
    timestamp ← field "timestamp" items ≫= as_str;
    Ok (UserPromptPart content timestamp)
  else if String.eqb part_kind "tool-return" then
    tool_name ← field "tool_name" items ≫= as_str;
    content ← field "content" items;
    tool_call_id ← optional_field "tool_call_id" items;
    timestamp ← field "timestamp" items ≫= as_str;
    Ok (ToolReturnPart tool_name (json_to_data content) tool_call_id timestamp)
  else Raise (ValidationError "part_kind: Input tag does not match any tag").

Definition validate_response_part (j : Json) : result ResponsePart :=
  items ← as_dict j;
  part_kind ← field "part_kind" items ≫= as_str;
  if String.eqb part_kind "text" then
    content ← field "content" items ≫= as_str;
    Ok (TextPart content)
  else if String.eqb part_kind "tool-call" then
    tool_name ← field "tool_name" items ≫= as_str;
    args ← field "args" items ≫= as_str;
    tool_call_id ← optional_field "tool_call_id" items;
    Ok (ToolCallPart tool_name args tool_call_id)
  else Raise (ValidationError "part_kind: Input tag does not match any tag").

Definition validate_message (j : Json) : result ModelMessage :=
  items ← as_dict j;
  kind ← field "kind" items ≫= as_str;
  if String.eqb kind "request" then
    parts ← field "parts" items ≫= as_list;
    parts ← validate_each validate_request_part parts;
    Ok (ModelRequest parts)
  else if String.eqb kind "response" then
    parts ← field "parts" items ≫= as_list;
    parts ← validate_each validate_response_part parts;
    timestamp ← field "timestamp" items ≫= as_str;
    Ok (ModelResponse parts timestamp)
  else Raise (ValidationError "kind: Input tag does not match any tag").

Definition validate_python (j : Json) : result (list ModelMessage) :=
  l ← as_list j;
  validate_each validate_message l.

(** *** Writing: [json.dump] *)






(** *** Reading: [json.load] *)














(** A value of type [Any] as it is after it has been written and read: a
    [datetime] is the text it was written as, a model instance the
    dictionary of its fields. *)
Definition as_loaded_data (v : PyData) : PyData := json_to_data (data_to_json v).

Definition as_loaded_part (p : RequestPart) : RequestPart :=
  match p with
  | UserPromptPart content timestamp => UserPromptPart content timestamp
  | ToolReturnPart tool_name content tool_call_id timestamp =>
      ToolReturnPart tool_name (as_loaded_data content) tool_call_id timestamp
  end.

Definition as_loaded (m : ModelMessage) : ModelMessage :=
  match m with
  | ModelRequest parts => ModelRequest (List.map as_loaded_part parts)
  | ModelResponse parts timestamp => ModelResponse parts timestamp
  end.

End Pydantic.


(** ** Key derivation: [get_history_filename] *)

Definition HISTORY_DIR : string := "chat_history".

(** [s.endswith(c)] for one character. *)
Fixpoint ends_with (c : ascii) (s : string) : bool :=
  match s with
  | EmptyString => false
  | String d EmptyString => Ascii.eqb d c
  | String _ rest => ends_with c rest
  end.

(** [os.path.join(a, b)] of [posixpath], for two components. *)
Definition os_path_join (a b : string) : string :=
  if String.prefix "/" b then b
  else if String.eqb a "" || ends_with "/" a then a ++ b
  else a ++ "/" ++ b.

Definition get_history_filename (repo_name : string) : option string :=
  if String.eqb repo_name "" then None
  else
    let safe_name := PyString.replace "/" "_" repo_name in
    Some (os_path_join HISTORY_DIR (safe_name ++ "_history.json")).

(** ** Notions used to state the properties *)

(** Two characters are the same letter: equal, or an upper-case letter and
    its lower-case form ([A]..[Z] are 65..90, [a]..[z] are 32 above). *)
Definition same_letter (c d : ascii) : Prop :=
  c = d \/
  (65 <= nat_of_ascii c <= 90 /\ nat_of_ascii d = nat_of_ascii c + 32) \/
  (65 <= nat_of_ascii d <= 90 /\ nat_of_ascii c = nat_of_ascii d + 32).

Inductive eq_ignoring_case : string -> string -> Prop :=
  | eic_empty : eq_ignoring_case "" ""
  | eic_char c d s t :
      same_letter c d -> eq_ignoring_case s t ->
      eq_ignoring_case (String c s) (String d t).

(** [query] occurs in [text] as a case-insensitive substring. *)
Definition ci_substring (query text : string) : Prop :=
  exists pre mid post,
    text = pre ++ mid ++ post /\ eq_ignoring_case mid query.



(** [query] occurs in [text] once [str.lower] has been applied to both. *)
Definition occurs_lowered {rt : PyRuntime} (query text : string) : Prop :=
  exists pre post, str_lower text = pre ++ str_lower query ++ post.





(** The lines of a list of sources, numbered from [i]: what the loop of
    [format_sources] adds to the heading. *)
Fixpoint source_lines (i : nat) (sources : list string) : string :=
  match sources with
  | [] => ""
  | source :: rest =>
      (PyString.of_nat i ++ ". " ++ source ++ nl) ++ source_lines (S i) rest
  end.

(** A repository identifier of the form [owner/name]: one separator, and
    something on each side of it. *)
Definition valid_repo_id (r : string) : bool :=
  match PyString.split "/" r with
  | [owner; name] => negb (String.eqb owner "") && negb (String.eqb name "")
  | _ => false
  end.

Definition owner_of (r : string) : string :=
  match PyString.split "/" r with
  | owner :: _ => owner
  | [] => ""
  end.

(** ** Further tool handlers: [get_repo_details], [search_code] *)

Definition get_repo_details `{GithubUtils} (ctx : GitHubDependencies)
  : result RepoInfo :=
  let repo_name := repo_name ctx in
  try_except
    ('(username, repo) ← unpack2 (PyString.split "/" repo_name);
     repos ← list_user_repositories (token ctx) username;
     let repo_info :=
       List.find (fun r => String.eqb (full_name r) repo_name) repos in
     match repo_info with
     | None => Raise (ValueError ("Repository " ++ repo_name ++ " not found"))
     | Some repo_info => Ok repo_info
     end)
    log_and_reraise.

(** One element of the list built by [search_code_in_repository]. *)
Record CodeMatch : Type := {
  match_name : string;
  match_path : string;
  match_url : string;
  match_repository : string;
  match_score : QArith_base.Q
}.

(** [github_utils.search_code_in_repository(repo_name, query, token)] *)
Class GithubSearch : Type := {
  search_code_in_repository : string -> PyVal -> string -> result (list CodeMatch)
}.

Record CodeSearchResult : Type := {
  matches : list CodeMatch;
  search_summary : string
}.

Definition search_summary_text (n : nat) (query : PyVal) : string :=
  if Nat.eqb n 0 then
    "No code matches found for '" ++ py_format query ++ "' in the repository."
  else
    "Found " ++ PyString.of_nat n ++ " code matches for '" ++ py_format query ++
    "' in the repository.".

Definition search_code `{GithubSearch} (ctx : GitHubDependencies) (query : PyVal)
  : result CodeSearchResult :=
  let repo_name := repo_name ctx in
  try_except
    (results ← search_code_in_repository repo_name query (token ctx);
     let summary := search_summary_text (length results) query in
     Ok {| matches := results; search_summary := summary |})
    log_and_reraise.

(** ** The blocking entry point: [analyze_repository_sync] *)

(** Token counts of a run; an attribute that is missing reads as [None]. *)
Record Usage : Type := {
  usage_request_tokens : option Z;
  usage_response_tokens : option Z;
  usage_total_tokens : option Z
}.

(** The [RunResult] of a run: [.data], [.all_messages()] and, when the
    attribute exists, [.usage]. *)
Record RunResult (ModelMessage : Type) : Type := {
  data : RepositoryAnalysisResult;
  all_messages : list ModelMessage;
  usage : option Usage
}.
Arguments data {ModelMessage} _.
Arguments all_messages {ModelMessage} _.
Arguments usage {ModelMessage} _.

(** [github_agent.run_sync(query, deps=deps[, message_history=...])] *)
Class AgentRunner (ModelMessage : Type) : Type := {
  run_sync : string -> GitHubDependencies -> option (list ModelMessage) ->
             result (RunResult ModelMessage)
}.

(** [if message_history:] for an optional list. *)
Definition nonempty_history {A : Type} (h : option (list A)) : bool :=
  match h with
  | Some (_ :: _) => true
  | _ => false
  end.

(** [analyze_repository_sync] returns the [RunResult] as the run gives it;
    reading the usage for the log cannot fail the call. *)
Definition analyze_repository_sync {ModelMessage : Type} `{!AgentRunner ModelMessage}
    (query token repo_name : string) (message_history : option (list ModelMessage))
  : result (RunResult ModelMessage) :=
  try_except
    (let deps := {| token := token; repo_name := repo_name |} in
     result ← (if nonempty_history message_history
               then run_sync query deps message_history
               else run_sync query deps None);
     Ok result)
    log_and_reraise.

(** ** The chat front end: [github_repo_assistant.py]

    The session state of the page is a record; the widgets and the calls
    that only draw ([st.error], [st.markdown], [st.spinner], [st.rerun]) are
    left out.  A reading of [datetime.now()] is an argument of the function
    that takes it. *)

(** [str(e)] *)
Definition exn_str (e : exn) : string :=
  match e with
  | ValueError msg | AttributeError msg | AssertionError msg
  | ValidationError msg | OSError msg | JSONDecodeError msg
  | GithubException msg | ModelError msg | UnexpectedModelBehavior msg => msg
  end.

(** [enumerate(l, start)] *)
Definition enumerate {A : Type} (start : nat) (l : list A) : list (nat * A) :=
  combine (seq start (length l)) l.

Definition format_sources (sources : list string) : string :=
  if Nat.eqb (length sources) 0 then ""
  else
    fold_left
      (fun formatted '(i, source) =>
         formatted ++ (PyString.of_nat i ++ ". " ++ source ++ nl))
      (enumerate 1 sources)
      (nl ++ nl ++ "**Sources:**" ++ nl).

(** One entry of [st.session_state.chat_history]. *)
Record ChatMessage : Type := {
  chat_role : string;
  chat_content : string;
  chat_timestamp : string
}.

(** [st.session_state.token_usage] *)
Record TokenUsage : Type := {
  request_tokens : Z;
  response_tokens : Z;
  total_tokens : Z;
  requests : Z
}.

Record SessionState (ModelMessage : Type) : Type := {
  github_token : string;
  selected_repository : option string;
  chat_history : list ChatMessage;
  conversation_started : bool;
  pydantic_messages : gmap string (list ModelMessage);
  token_usage : TokenUsage
}.
Arguments github_token {ModelMessage} _.
Arguments selected_repository {ModelMessage} _.
Arguments chat_history {ModelMessage} _.
Arguments conversation_started {ModelMessage} _.
Arguments pydantic_messages {ModelMessage} _.
Arguments token_usage {ModelMessage} _.

(** [format(x, '.2f')] of the Python runtime. *)
Class FloatFormat : Type := {
  format_2f : QArith_base.Q -> string
}.

(** The [float] written [0.7]: the double nearest to 7/10. *)
Definition confidence_threshold : QArith_base.Q :=
  QArith_base.Qmake 3152519739159347 4503599627370496.

(** [x > y] on floats. *)
Definition Qgt_bool (x y : QArith_base.Q) : bool :=
  negb (QArith_base.Qle_bool x y).

Section FrontEnd.
Context {ModelMessage Jsonable : Type}
        {codec : MessageCodec ModelMessage Jsonable}
        {runner : AgentRunner ModelMessage}
        {fmt : FloatFormat}.

Definition set_chat (chat : list ChatMessage) (started : bool)
    (st : SessionState ModelMessage) : SessionState ModelMessage :=
  {| github_token := github_token st;
     selected_repository := selected_repository st;
     chat_history := chat;
     conversation_started := started;
     pydantic_messages := pydantic_messages st;
     token_usage := token_usage st |}.

Definition set_pydantic_messages (msgs : gmap string (list ModelMessage))
    (st : SessionState ModelMessage) : SessionState ModelMessage :=
  {| github_token := github_token st;
     selected_repository := selected_repository st;
     chat_history := chat_history st;
     conversation_started := conversation_started st;
     pydantic_messages := msgs;
     token_usage := token_usage st |}.

Definition set_token_usage (u : TokenUsage)
    (st : SessionState ModelMessage) : SessionState ModelMessage :=
  {| github_token := github_token st;
     selected_repository := selected_repository st;
     chat_history := chat_history st;
     conversation_started := conversation_started st;
     pydantic_messages := pydantic_messages st;
     token_usage := u |}.

(** [if not repo_name] for the selected repository: [None] or [""]. *)
Definition selected (r : option string) : option string :=
  match r with
  | Some name => if String.eqb name "" then None else Some name
  | None => None
  end.

Definition load_pydantic_message_history (repo_name : option string)
    (st : SessionState ModelMessage) (fs : FileSystem)
  : SessionState ModelMessage * FileSystem :=
  match selected repo_name with
  | None => (st, fs)
  | Some repo_name =>
      match get_history_filename repo_name with
      | Some history_file =>
          if bool_decide (is_Some (pydantic_messages st !! repo_name)) then (st, fs)
          else
            match load_messages_from_json history_file fs with
            | (Ok messages, fs') =>
                (set_pydantic_messages
                   (<[repo_name := messages]> (pydantic_messages st)) st, fs')
            | (Raise _, fs') => (st, fs')
            end
      | None => (st, fs)
      end
  end.

Definition on_repository_select (st : SessionState ModelMessage) (fs : FileSystem)
  : SessionState ModelMessage * FileSystem :=
  let st := set_chat [] false st in
  load_pydantic_message_history (selected_repository st) st fs.

Definition set_selected_repository (r : option string)
    (st : SessionState ModelMessage) : SessionState ModelMessage :=
  {| github_token := github_token st;
     selected_repository := r;
     chat_history := chat_history st;
     conversation_started := conversation_started st;
     pydantic_messages := pydantic_messages st;
     token_usage := token_usage st |}.

(** The select box of the page in one run of the script:
    [selected_repo_name = st.selectbox(..., on_change=on_repository_select)]
    followed by [st.session_state.selected_repository = selected_repo_name].
    The box has no key, so the session state holds the choice only once the
    script has stored it; when the user has changed the choice ([changed]),
    the callback runs first, on the state as the previous run left it. *)
Definition select_repository (changed : bool) (selected_repo_name : string)
    (st : SessionState ModelMessage) (fs : FileSystem)
  : SessionState ModelMessage * FileSystem :=
  let '(st, fs) := if changed then on_repository_select st fs else (st, fs) in
  (set_selected_repository (Some selected_repo_name) st, fs).

(** [add_message_with_timestamp]; [timestamp] is the reading of the clock. *)
Definition add_message_with_timestamp (timestamp role content : string)
    (st : SessionState ModelMessage) : SessionState ModelMessage :=
  set_chat
    (chat_history st ++
     [{| chat_role := role; chat_content := content;
         chat_timestamp := timestamp |}])%list
    (conversation_started st) st.

(** [if tokens: counter += tokens] *)
Definition add_tokens (counter : Z) (tokens : option Z) : Z :=
  match tokens with
  | Some n => if Z.eqb n 0 then counter else (counter + n)%Z
  | None => counter
  end.

Definition update_token_usage (u : Usage) (t : TokenUsage) : TokenUsage :=
  {| requests := (requests t + 1)%Z;
     request_tokens := add_tokens (request_tokens t) (usage_request_tokens u);
     response_tokens := add_tokens (response_tokens t) (usage_response_tokens u);
     total_tokens := add_tokens (total_tokens t) (usage_total_tokens u) |}.

Definition confidence_text (c : QArith_base.Q) : string :=
  if Qgt_bool c confidence_threshold
  then nl ++ nl ++ "*Confidence: " ++ format_2f c ++ "*"
  else "".

Definition full_response_text (r : RepositoryAnalysisResult) : string :=
  answer r ++ format_sources (sources r) ++ confidence_text (confidence r).

Definition error_response_text (e : exn) : string :=
  "I encountered an error while processing your query: " ++ exn_str e.

(** The [try] block of [process_query]: the text to show, and the state and
    files it leaves. *)
Definition answer_query (repo_name query : string)
    (st : SessionState ModelMessage) (fs : FileSystem)
  : string * SessionState ModelMessage * FileSystem :=
  let message_history := default [] (pydantic_messages st !! repo_name) in
  match analyze_repository_sync query (github_token st) repo_name
          (if Nat.eqb (length message_history) 0 then None
           else Some message_history) with
  | Raise e => (error_response_text e, st, fs)
  | Ok agent_result =>
      let result := data agent_result in
      let st :=
        match usage agent_result with
        | Some u => set_token_usage (update_token_usage u (token_usage st)) st
        | None => st
        end in
      let full_response := full_response_text result in
      let st :=
        set_pydantic_messages
          (<[repo_name := all_messages agent_result]> (pydantic_messages st)) st in
      let fs :=
        match get_history_filename repo_name with
        | Some history_file =>
            snd (save_messages_to_json
                   (default [] (pydantic_messages st !! repo_name))
                   history_file fs)
        | None => fs
        end in
      (full_response, st, fs)
  end.

Definition process_query (now_user now_assistant query : string)
    (st : SessionState ModelMessage) (fs : FileSystem)
  : SessionState ModelMessage * FileSystem :=
  match selected (selected_repository st) with
  | None => (st, fs)
  | Some repo_name =>
      let st := add_message_with_timestamp now_user "user" query st in
      let st := set_chat (chat_history st) true st in
      let '(full_response, st, fs) := answer_query repo_name query st fs in
      (add_message_with_timestamp now_assistant "assistant" full_response st, fs)
  end.

(** [os.remove(filename)] *)
Definition os_remove (filename : string) : IO unit :=
  fun fs =>
    if bool_decide (filename ∈ fs_denied fs) then
      (Raise (OSError "cannot remove"), fs)
    else
      match fs_files fs !! filename with
      | Some _ => (Ok tt, {| fs_files := delete filename (fs_files fs);
                             fs_denied := fs_denied fs |})
      | None => (Raise (OSError "No such file or directory"), fs)
      end.

(** The "Clear Chat" button: it is drawn when the chat is not empty, and
    [pressed] tells whether it was clicked. *)
Definition clear_chat (pressed : bool)
    (st : SessionState ModelMessage) (fs : FileSystem)
  : SessionState ModelMessage * FileSystem :=
  if negb (Nat.eqb (length (chat_history st)) 0) && pressed then
    let st := set_chat [] false st in
    match selected_repository st with
    | Some repo_name =>
        if bool_decide (is_Some (pydantic_messages st !! repo_name)) then
          let st :=
            set_pydantic_messages (<[repo_name := []]> (pydantic_messages st)) st in
          match get_history_filename repo_name with
          | Some history_file =>
              if bool_decide (is_Some (fs_files fs !! history_file)) then
                (st, snd (io_try (os_remove history_file) (fun e => mret tt) fs))
              else (st, fs)
          | None => (st, fs)
          end
        else (st, fs)
    | None => (st, fs)
    end
  else (st, fs).

End FrontEnd.

(** The history handed to a run by [process_query]: the stored messages of
    the repository, or nothing when there are none. *)
Definition history_for {ModelMessage : Type} (repo : string)
    (st : SessionState ModelMessage) : option (list ModelMessage) :=
  match pydantic_messages st !! repo with
  | Some (m :: ms) => Some (m :: ms)
  | _ => None
  end.

(** ** The data-access layer: [github_utils.py]

    The GitHub client library is an interface, [PyGithub]: each operation
    takes the token of the client it is called on and answers with the data
    or raises.  The objects it yields carry the attributes that
    [github_utils] copies into dictionaries, so they are the records above;
    a content object also has its encoding and decoded text.  Creating and
    closing clients is counted in [Network]. *)

Record RawFile : Type := {
  raw_name : string;
  raw_path : string;
  raw_type : string;
  raw_size : Z;
  raw_html_url : string;
  raw_encoding : option string;
  (** [decoded_content.decode('utf-8')] *)
  raw_text : result string
}.

(** What [repo.get_contents(path)] returns: one object, or a list. *)
Inductive RawContent : Type :=
  | RawSingle (c : RawFile)
  | RawListing (l : list RawFile).

Class PyGithub : Type := {
  (** [g.get_user(username).get_repos()], or [g.get_user().get_repos()] *)
  api_user_repos : string -> option string -> result (list RepoInfo);
  (** [g.search_code(query)] *)
  api_search_code : string -> string -> result (list CodeMatch);
  (** [g.get_repo(repo_name).get_issues(state=state)] *)
  api_issues : string -> string -> PyVal -> result (list Issue);
  (** [g.get_repo(repo_name).get_commits(path=path)], or [.get_commits()] *)
  api_commits : string -> string -> option PyVal -> result (list Commit);
  (** [g.get_repo(repo_name).get_contents(path)] *)
  api_contents : string -> string -> PyVal -> result RawContent
}.

(** [os.getenv("GITHUB_PERSONAL_ACCESS_TOKEN")] *)
Class Environ : Type := {
  env_github_token : option string
}.

Record Network : Type := {
  clients_opened : nat;
  clients_closed : nat
}.

Definition Net (A : Type) : Type := Network -> result A * Network.

#[global] Instance net_ret : MRet Net := fun _ a n => (Ok a, n).
#[global] Instance net_bind : MBind Net := fun _ _ k m n =>
  match m n with
  | (Ok a, n') => k a n'
  | (Raise e, n') => (Raise e, n')
  end.

Definition net_lift {A : Type} (r : result A) : Net A := fun n => (r, n).

(** [try: body / finally: final] *)
Definition try_finally {A : Type} (body : Net A) (final : Net unit) : Net A :=
  fun n =>
    match body n with
    | (r, n') =>
        match final n' with
        | (Ok _, n'') => (r, n'')
        | (Raise e, n'') => (Raise e, n'')
        end
    end.

(** [Github(auth=Auth.Token(token))]: [Auth.Token] asserts that the token
    is not empty; the client created is known by its token. *)
Definition github_open (token : string) : Net string :=
  fun n =>
    if String.eqb token "" then (Raise (AssertionError ""), n)
    else (Ok token, {| clients_opened := S (clients_opened n);
                       clients_closed := clients_closed n |}).

(** [g.close()] *)
Definition github_close : Net unit :=
  fun n => (Ok tt, {| clients_opened := clients_opened n;
                      clients_closed := S (clients_closed n) |}).

Module github_utils.
Section WithLibrary.
Context {api : PyGithub} {env : Environ}.

Definition get_github_client (token : option string) : Net string :=
  match token with
  | Some token => github_open token
  | None =>
      match env_github_token with
      | Some token => github_open token
      | None =>
          net_lift (Raise (ValueError
            "GitHub token not provided and GITHUB_PERSONAL_ACCESS_TOKEN environment variable not set"))
      end
  end.

(** [if username:] *)
Definition given_username (username : option string) : option string :=
  match username with
  | Some u => if String.eqb u "" then None else Some u
  | None => None
  end.

Definition list_user_repositories (token username : option string)
  : Net (list RepoInfo) :=
  g ← get_github_client token;
  try_finally (net_lift (api_user_repos g (given_username username)))
              github_close.

Definition search_code_in_repository (repo_name : string) (query : PyVal)
    (token : option string) : Net (list CodeMatch) :=
  g ← get_github_client token;
  try_finally
    (net_lift (api_search_code g (py_format query ++ " repo:" ++ repo_name)))
    github_close.

Definition list_repository_issues (repo_name : string) (state : PyVal)
    (token : option string) : Net (list Issue) :=
  g ← get_github_client token;
  try_finally (net_lift (api_issues g repo_name state)) github_close.

Definition list_repository_commits (repo_name : string) (path : PyVal)
    (token : option string) : Net (list Commit) :=
  g ← get_github_client token;
  try_finally
    (net_lift (api_commits g repo_name
                 (if is_not_none path then Some path else None)))
    github_close.

(** The dictionary of a single content object. *)
Definition file_dict (contents : RawFile) : result FileDict :=
  content ← (match raw_encoding contents with
             | Some encoding =>
                 if String.eqb encoding "base64"
                 then (text ← raw_text contents; Ok (Some text))
                 else Ok None
             | None => Ok None
             end);
  Ok {| file_name := raw_name contents; file_path := raw_path contents;
        file_type := raw_type contents; file_size := raw_size contents;
        file_url := raw_html_url contents; file_content := content |}.

(** The dictionary of one element of a directory listing. *)
Definition entry_dict (content : RawFile) : EntryDict :=
  {| entry_name := raw_name content; entry_path := raw_path content;
     entry_type := raw_type content; entry_size := raw_size content;
     entry_url := raw_html_url content |}.

Definition get_repository_content (repo_name : string) (path : PyVal)
    (token : option string) : Net Content :=
  g ← get_github_client token;
  try_finally
    (net_lift
       (contents ← api_contents g repo_name path;
        match contents with
        | RawSingle c => d ← file_dict c; Ok (ContentDict d)
        | RawListing l => Ok (ContentList (List.map entry_dict l))
        end))
    github_close.

End WithLibrary.
End github_utils.

(** The result of a call made on a network without clients. *)
Definition run_net {A : Type} (call : Net A) : result A :=
  fst (call {| clients_opened := 0; clients_closed := 0 |}).

(** [github_utils] as the collaborator of the tool handlers, which pass the
    token and the user name of the session. *)
Definition github_utils_collaborator (api : PyGithub) (env : Environ)
  : GithubUtils :=
  {| list_user_repositories token username :=
       run_net (github_utils.list_user_repositories (Some token) (Some username));
     list_repository_issues repo state token :=
       run_net (github_utils.list_repository_issues repo state (Some token));
     list_repository_commits repo path token :=
       run_net (github_utils.list_repository_commits repo path (Some token));
     get_repository_content repo path token :=
       run_net (github_utils.get_repository_content repo path (Some token)) |}.

(** ** Sample collaborators and data, for evaluating the handlers *)

Module Sample.

Definition mk_issue (n : Z) (title : string) (labels : list string) : Issue :=
  {| issue_number := n; issue_title := title; issue_state := "open";
     issue_html_url := "https://github.com/octocat/hello/issues";
     issue_created_at := "2025-01-01 00:00:00+00:00";
     issue_updated_at := "2025-01-02 00:00:00+00:00";
     issue_user := "octocat"; issue_labels := labels; issue_comments := 0 |}.

Definition fix_bug : Issue := mk_issue 1 "Fix bug" ["bug"].
Definition add_feature : Issue := mk_issue 2 "Add feature" ["enhancement"].

Definition mk_commit (id message : string) : Commit :=
  {| sha := id; commit_html_url := "https://github.com/octocat/hello/commit";
     commit_message := message; author := Some "octocat"; committer := None;
     commit_date := "2025-01-01 00:00:00+00:00";
     stats := {| additions := 1; deletions := 0; total := 1 |} |}.

Definition fix_null_pointer : Commit := mk_commit "a1" "Fix null pointer".
Definition add_docs : Commit := mk_commit "b2" "Add docs".

Definition readme : FileDict :=
  {| file_name := "README.md"; file_path := "README.md"; file_type := "file";
     file_size := 12; file_url := "https://github.com/octocat/hello/README.md";
     file_content := Some "Hello world." |}.

Definition link : FileDict :=
  {| file_name := "latest"; file_path := "latest"; file_type := "symlink";
     file_size := 3; file_url := "https://github.com/octocat/hello/latest";
     file_content := None |}.

Definition src_entries : list EntryDict :=
  [ {| entry_name := "agent.py"; entry_path := "src/agent.py";
       entry_type := "file"; entry_size := 100;
       entry_url := "https://github.com/octocat/hello/src/agent.py" |} ].

(** A collaborator that, like the GitHub client behind [github_utils],
    asserts that [state] is a string and that [path] is a string when given,
    and that knows no repository of the user. *)
Definition github : GithubUtils :=
  {| list_user_repositories _ _ := Raise (GithubException "404 Not Found");
     list_repository_issues _ state _ :=
       if is_str state then Ok [fix_bug; add_feature]
       else Raise (AssertionError (py_format state));
     list_repository_commits _ path _ :=
       if is_str path || negb (is_not_none path)
       then Ok [fix_null_pointer; add_docs]
       else Raise (AssertionError (py_format path));
     get_repository_content _ path _ :=
       match path with
       | PyStr p =>
           if String.eqb p "README.md" then Ok (ContentDict readme)
           else if String.eqb p "latest" then Ok (ContentDict link)
           else if String.eqb p "src" then Ok (ContentList src_entries)
           else Raise (GithubException "404 Not Found")
       | _ => Raise (AssertionError (py_format path))
       end |}.

(** A collaborator whose listing succeeds but does not contain the
    repository asked for. *)
Definition github_empty : GithubUtils :=
  {| list_user_repositories _ _ := Ok [];
     list_repository_issues _ _ _ := Ok [];
     list_repository_commits _ _ _ := Ok [];
     get_repository_content _ _ _ := Ok (ContentList []) |}.

Definition hello_repo : RepoInfo :=
  {| repo_short_name := "hello"; full_name := "octocat/hello";
     description := None;
     repo_html_url := "https://github.com/octocat/hello";
     ssh_url := "git@github.com:octocat/hello.git";
     clone_url := "https://github.com/octocat/hello.git";
     language := Some "Python"; private := false;
     repo_created_at := "2024-12-01 00:00:00+00:00";
     updated_at := "2025-01-02 00:00:00+00:00";
     size := 42; stargazers_count := 7; forks_count := 0 |}.

(** A collaborator whose listing contains the repository. *)
Definition github_listing : GithubUtils :=
  {| list_user_repositories _ _ := Ok [hello_repo];
     list_repository_issues _ _ _ := Ok [];
     list_repository_commits _ _ _ := Ok [];
     get_repository_content _ _ _ := Ok (ContentList []) |}.

Definition clock : Clock :=
  {| now_date := "2025-01-01"; now_time := "12:00:00" |}.

Definition deps : GitHubDependencies :=
  {| token := "ghp_token"; repo_name := "octocat/hello" |}.

(** A codec on messages that are plain lines of text: the serialised form
    is the list of lines, written one per line. *)
Definition join_lines (lines : list string) : string :=
  String.concat nl lines.

Definition line_codec : MessageCodec string (list string) :=
  {| to_jsonable_python ms := Ok ms;
     json_dump j := (join_lines j, None);
     json_load text := Ok (PyString.split (ascii_of_nat 10) text);
     validate_python j := Ok j |}.

Definition empty_fs : FileSystem := {| fs_files := ∅; fs_denied := ∅ |}.

Definition payload (a : string) (num : Z) (den : positive) : ResultPayload :=
  {| payload_answer := Some a; payload_sources := None;
     payload_confidence := Some (QArith_base.Qmake num den) |}.

(** A conversation in which the agent looks up the repository: the tool
    returns what [get_repo_details] returns, with the dates of the
    repository. *)
Definition details_conversation : list Pydantic.ModelMessage :=
  [ Pydantic.ModelRequest
      [Pydantic.UserPromptPart "When was it created?" "2025-01-01T12:00:00Z"];
    Pydantic.ModelResponse
      [Pydantic.ToolCallPart "get_repo_details" "{}" (Some "call_1")]
      "2025-01-01T12:00:01Z";
    Pydantic.ModelRequest
      [Pydantic.ToolReturnPart "get_repo_details"
         (Pydantic.DDict
            [("full_name", Pydantic.DStr "octocat/hello");
             ("description", Pydantic.DNone);
             ("private", Pydantic.DBool false);
             ("created_at", Pydantic.DDatetime "2011-01-26T19:01:12Z");
             ("stargazers_count", Pydantic.DInt 7)])
         (Some "call_1") "2025-01-01T12:00:02Z"];
    Pydantic.ModelResponse
      [Pydantic.TextPart "It was created in January 2011."]
      "2025-01-01T12:00:03Z" ].



(** A model that gives [first], and [second] when it is asked again. *)
Definition backend_retrying (first second : ResultPayload) : ModelBackend :=
  {| model_answer _ _ attempt :=
       match attempt with
       | O => Ok first
       | S _ => Ok second
       end |}.


(** Texts with letters outside ASCII, by their UTF-8 bytes: capital alpha
    and capital sigma, small alpha and final small sigma, small sigma,
    and EMILE, emile with an acute accent on the first letter. *)
Definition capital_alpha_sigma : string := PyString.utf8 [206; 145; 206; 163].
Definition capital_sigma : string := PyString.utf8 [206; 163].
Definition alpha_final_sigma : string := PyString.utf8 [206; 177; 207; 130].
Definition small_sigma : string := PyString.utf8 [207; 131].
Definition capital_emile : string := PyString.utf8 [195; 137; 77; 73; 76; 69].
Definition small_emile : string := PyString.utf8 [195; 169; 109; 105; 108; 101].

(** [str.lower] where it is needed here: its values at the three texts above
    that hold capital letters outside ASCII, and the ASCII mapping on every
    other text. *)
Definition lower_where_needed (s : string) : string :=
  if String.eqb s capital_alpha_sigma then alpha_final_sigma
  else if String.eqb s capital_sigma then small_sigma
  else if String.eqb s capital_emile then small_emile
  else PyString.lower s.

Definition runtime : PyRuntime.
Proof.
  refine {| str_lower := lower_where_needed |}.
  intros s Hs. unfold lower_where_needed.
  destruct (String.eqb_spec s capital_alpha_sigma) as [-> | _];
    [discriminate Hs |].
  destruct (String.eqb_spec s capital_sigma) as [-> | _]; [discriminate Hs |].
  destruct (String.eqb_spec s capital_emile) as [-> | _]; [discriminate Hs |].
  reflexivity.
Defined.

Definition greek_issue : Issue := mk_issue 3 capital_alpha_sigma [].
Definition zola_issue : Issue := mk_issue 4 (small_emile ++ " zola") [].
Definition greek_commit : Commit := mk_commit "c3" capital_alpha_sigma.
Definition zola_commit : Commit := mk_commit "c4" (small_emile ++ " zola").

(** A collaborator with issues and commits titled outside ASCII: the two
    Greek capitals, and a name with an accent. *)
Definition github_unicode : GithubUtils :=
  {| list_user_repositories _ _ := Ok [];
     list_repository_issues _ _ _ := Ok [greek_issue; zola_issue];
     list_repository_commits _ _ _ := Ok [greek_commit; zola_commit];
     get_repository_content _ _ _ := Ok (ContentList []) |}.

End Sample.

Module SampleSession.

(** [format(x, '.2f')] for a non-negative value: hundredths, rounded to the
    nearest, ties to even. *)
Definition two_decimals (q : QArith_base.Q) : string :=
  let num := (QArith_base.Qnum q * 100)%Z in
  let den := Zpos (QArith_base.Qden q) in
  let fl := (num / den)%Z in
  let n :=
    match (2 * (num - fl * den) ?= den)%Z with
    | Lt => fl
    | Gt => (fl + 1)%Z
    | Eq => if Z.even fl then fl else (fl + 1)%Z
    end in
  PyString.of_Z (n / 100) ++ "." ++
  PyString.of_Z ((n mod 100) / 10) ++ PyString.of_Z (n mod 10).

Definition float_format : FloatFormat := {| format_2f := two_decimals |}.

Definition greeting : RepositoryAnalysisResult :=
  {| answer := "It prints a greeting.";
     sources := ["README.md"; "src/agent.py"];
     confidence := QArith_base.Qmake 9 10 |}.

(** A runner that appends the question and its answer to the history it is
    given. *)
Definition runner : AgentRunner string :=
  {| run_sync query _ history :=
       Ok {| data := greeting;
             all_messages :=
               app (default [] history)
                   [("user: " ++ query)%string; "assistant: It prints a greeting."];
             usage := Some {| usage_request_tokens := Some 120%Z;
                              usage_response_tokens := Some 30%Z;
                              usage_total_tokens := None |} |} |}.

Definition failing_runner : AgentRunner string :=
  {| run_sync _ _ _ := Raise (ModelError "model request failed") |}.

Definition no_usage : TokenUsage :=
  {| request_tokens := 0; response_tokens := 0; total_tokens := 0; requests := 0 |}.

Definition fresh : SessionState string :=
  {| github_token := "ghp_token"; selected_repository := Some "octocat/hello";
     chat_history := []; conversation_started := false;
     pydantic_messages := ∅; token_usage := no_usage |}.

Definition nothing_selected : SessionState string :=
  {| github_token := "ghp_token"; selected_repository := None;
     chat_history := []; conversation_started := false;
     pydantic_messages := ∅; token_usage := no_usage |}.

(** A session in the middle of a conversation about the repository. *)
Definition chatting : SessionState string :=
  {| github_token := "ghp_token"; selected_repository := Some "octocat/hello";
     chat_history := [ {| chat_role := "user"; chat_content := "hello";
                          chat_timestamp := "09:59:00" |} ];
     conversation_started := true;
     pydantic_messages := {[ "octocat/hello" := ["user: hello"] ]};
     token_usage := no_usage |}.

Definition search : GithubSearch :=
  {| search_code_in_repository _ query _ :=
       if String.eqb (py_format query) "greet" then
         Ok [ {| match_name := "agent.py"; match_path := "src/agent.py";
                 match_url := "https://github.com/octocat/hello/src/agent.py";
                 match_repository := "octocat/hello";
                 match_score := QArith_base.Qmake 1 1 |} ]
       else Ok [] |}.

(** A codec that can fail at each stage: an empty message cannot be
    serialised, the dump stops after the first line when a later line is
    binary, the empty text does not parse, and a parsed line without a role
    is not a message. *)
Definition fragile_codec : MessageCodec string (list string) :=
  {| to_jsonable_python ms :=
       if existsb (String.eqb "") ms then Raise (ValueError "cannot serialise")
       else Ok ms;
     json_dump j :=
       match j with
       | first :: rest =>
           if existsb (String.eqb "<binary>") rest
           then (first, Some (ValueError "not JSON serializable"))
           else (Sample.join_lines j, None)
       | [] => ("", None)
       end;
     json_load text :=
       if String.eqb text "" then Raise (JSONDecodeError "Expecting value")
       else Ok (PyString.split (ascii_of_nat 10) text);
     validate_python j :=
       if forallb (PyString.contains ": ") j then Ok j
       else Raise (ValidationError "not a message") |}.

Definition history_file : string := "chat_history/octocat_hello_history.json".

(** A file system with a history saved earlier. *)
Definition fs_with_history : FileSystem :=
  {| fs_files := {[ history_file := "user: hello" ]}; fs_denied := ∅ |}.

(** The same, with the location refused. *)
Definition fs_refused : FileSystem :=
  {| fs_files := {[ history_file := "user: hello" ]};
     fs_denied := {[ history_file ]} |}.

(** A history file that is empty, and one whose content is not messages. *)
Definition fs_empty_file : FileSystem :=
  {| fs_files := {[ history_file := "" ]}; fs_denied := ∅ |}.

Definition fs_garbage : FileSystem :=
  {| fs_files := {[ history_file := "garbage" ]}; fs_denied := ∅ |}.

End SampleSession.

(** A call closes the client it opened: it leaves the network as it was, or
    with one more client opened and one more closed. *)
Definition closes_its_client {A : Type} (call : Net A) : Prop :=
  forall n : Network,
    snd (call n) = n \/
    snd (call n) = {| clients_opened := S (clients_opened n);
                      clients_closed := S (clients_closed n) |}.

(** The network after one more client has been opened and closed. *)
Definition after_one_client (n : Network) : Network :=
  {| clients_opened := S (clients_opened n);
     clients_closed := S (clients_closed n) |}.

(** The token a call ends up using. *)
Definition resolved_token {env : Environ} (token : option string) : option string :=
  match token with
  | Some t => Some t
  | None => env_github_token
  end.

Module SampleGithub.

Definition text_file : RawFile :=
  {| raw_name := "README.md"; raw_path := "README.md"; raw_type := "file";
     raw_size := 12; raw_html_url := "https://github.com/octocat/hello/README.md";
     raw_encoding := Some "base64"; raw_text := Ok "Hello world." |}.

Definition image_file : RawFile :=
  {| raw_name := "logo.png"; raw_path := "logo.png"; raw_type := "file";
     raw_size := 2048; raw_html_url := "https://github.com/octocat/hello/logo.png";
     raw_encoding := Some "base64";
     raw_text := Raise (ValueError "'utf-8' codec can't decode byte 0x89") |}.

Definition large_file : RawFile :=
  {| raw_name := "data.csv"; raw_path := "data.csv"; raw_type := "file";
     raw_size := 5000000; raw_html_url := "https://github.com/octocat/hello/data.csv";
     raw_encoding := Some "none"; raw_text := Ok "" |}.

(** A library that answers for the token ["ghp_token"] only. *)
Definition api : PyGithub :=
  {| api_user_repos t _ :=
       if String.eqb t "ghp_token" then Ok [Sample.hello_repo]
       else Raise (GithubException "401 Bad credentials");
     api_search_code t _ :=
       if String.eqb t "ghp_token" then Ok []
       else Raise (GithubException "401 Bad credentials");
     api_issues t _ _ :=
       if String.eqb t "ghp_token" then Ok [Sample.fix_bug; Sample.add_feature]
       else Raise (GithubException "401 Bad credentials");
     api_commits t _ _ :=
       if String.eqb t "ghp_token" then Ok [Sample.fix_null_pointer; Sample.add_docs]
       else Raise (GithubException "401 Bad credentials");
     api_contents t _ path :=
       if String.eqb t "ghp_token" then
         if String.eqb (py_format path) "README.md" then Ok (RawSingle text_file)
         else if String.eqb (py_format path) "logo.png" then Ok (RawSingle image_file)
         else if String.eqb (py_format path) "data.csv" then Ok (RawSingle large_file)
         else if String.eqb (py_format path) "" then
           Ok (RawListing [text_file; image_file; large_file])
         else Raise (GithubException "404 Not Found")
       else Raise (GithubException "401 Bad credentials") |}.

Definition no_env : Environ := {| env_github_token := None |}.
Definition env_with_token : Environ := {| env_github_token := Some "ghp_token" |}.

Definition env_with_empty_token : Environ := {| env_github_token := Some "" |}.

Definition quiet : Network := {| clients_opened := 3; clients_closed := 3 |}.

End SampleGithub.

(** * Properties *)

(** ** Evaluation on concrete inputs *)

Example lower_mixed : PyString.lower "Fix Bug #12" = "fix bug #12".
Proof. reflexivity. Qed.

Example contains_mid : PyString.contains "bug" "fix bug now" = true.
Proof. reflexivity. Qed.

Example contains_empty : PyString.contains "" "abc" = true.
Proof. reflexivity. Qed.

Example contains_absent : PyString.contains "bug" "add feature" = false.
Proof. reflexivity. Qed.

Example split_two : PyString.split "/" "owner/name" = ["owner"; "name"].
Proof. reflexivity. Qed.

Example split_none : PyString.split "/" "abc" = ["abc"].
Proof. reflexivity. Qed.

Example split_empty : PyString.split "/" "" = [""].
Proof. reflexivity. Qed.

Example split_trailing : PyString.split "/" "a/b/" = ["a"; "b"; ""].
Proof. reflexivity. Qed.

Example of_nat_12 : PyString.of_nat 12 = "12".
Proof. reflexivity. Qed.

Example of_nat_0 : PyString.of_nat 0 = "0".
Proof. reflexivity. Qed.

Example of_Z_neg : PyString.of_Z (-7) = "-7".
Proof. reflexivity. Qed.

Example replace_slashes : PyString.replace "/" "_" "octocat/hello" = "octocat_hello".
Proof. reflexivity. Qed.

Example history_filename_octocat :
  get_history_filename "octocat/hello" = Some "chat_history/octocat_hello_history.json".
Proof. reflexivity. Qed.

Example history_filename_none : get_history_filename "" = None.
Proof. reflexivity. Qed.

Example analyze_issues_state_none :
  analyze_issues (H := Sample.github) (rt := Sample.runtime) Sample.deps
    (PyStr "bug") PyNone =
  Raise (AssertionError "None").
Proof. reflexivity. Qed.

Example analyze_issues_no_match :
  analyze_issues (H := Sample.github) (rt := Sample.runtime) Sample.deps
    (PyStr "zzz") (PyStr "open") =
  Ok {| issues := [];
        issues_summary := "No issues found matching 'zzz' with state 'open'." |}.
Proof. reflexivity. Qed.

Example analyze_issues_query_not_str :
  analyze_issues (H := Sample.github) (rt := Sample.runtime) Sample.deps
    FieldInfo (PyStr "open") =
  Raise (AttributeError "'FieldInfo' object has no attribute 'lower'").
Proof. reflexivity. Qed.

Example analyze_commits_in_path :
  analyze_commits (H := Sample.github) (rt := Sample.runtime) Sample.deps
    (PyStr "fix") (PyStr "src") =
  Ok {| commits := [Sample.fix_null_pointer];
        commits_summary := "Found 1 commits matching 'fix' in path 'src'" |}.
Proof. reflexivity. Qed.

Example list_commits_marker :
  list_commits (H := Sample.github) Sample.deps FieldInfo =
  Ok [Sample.fix_null_pointer; Sample.add_docs].
Proof. reflexivity. Qed.

Example list_directory_contents_marker :
  list_directory_contents (H := Sample.github) Sample.deps FieldInfo =
  Raise (AssertionError "FieldInfo").
Proof. reflexivity. Qed.

Example repository_context_enriched :
  exists text,
    repository_context (H := Sample.github_listing) (H0 := Sample.clock) Sample.deps
    = Ok text /\
    PyString.contains "Repository name: octocat/hello" text = true /\
    PyString.contains "- Description: No description provided" text = true /\
    PyString.contains "- Primary language: Python" text = true /\
    PyString.contains "- Stars: 7" text = true /\
    PyString.contains "today's date is 2025-01-01 and the time now is 12:00:00"
                      text = true.
Proof. eexists. split; [reflexivity |]. by vm_compute. Qed.

Example validate_result_clamps_nothing :
  validate_result (Sample.payload "It greets." 3 2) =
  Raise (ValidationError "confidence: Input should be less than or equal to 1").
Proof. reflexivity. Qed.

Example validate_result_negative :
  validate_result (Sample.payload "It greets." (-1) 10) =
  Raise (ValidationError "confidence: Input should be greater than or equal to 0").
Proof. reflexivity. Qed.

Example out_of_range_answer_is_asked_again :
  analyze_repository
    (H := Sample.backend_retrying (Sample.payload "It greets." 3 2)
                                  (Sample.payload "It greets." 9 10))
    "What does this repository do?" "ghp_token" "octocat/hello" =
  Ok {| answer := "It greets."; sources := [];
        confidence := QArith_base.Qmake 9 10 |}.
Proof. reflexivity. Qed.

Example validate_result_bounds :
  validate_result (Sample.payload "It greets." 0 1) =
    Ok {| answer := "It greets."; sources := [];
          confidence := QArith_base.Qmake 0 1 |} /\
  validate_result (Sample.payload "It greets." 1 1) =
    Ok {| answer := "It greets."; sources := [];
          confidence := QArith_base.Qmake 1 1 |}.
Proof. split; reflexivity. Qed.

(** ** Strings *)

Section StringFacts.

Lemma prefix_iff (p s : string) :
  String.prefix p s = true <-> exists rest, s = p ++ rest.
Proof.
  revert s. induction p as [|c p IH]; intros s.
  - split; [intros _; by exists s | intros _; by destruct s].
  - destruct s as [|d s]; simpl.
    + split; [discriminate | intros [rest Hr]; discriminate].
    + destruct (ascii_dec c d) as [->|Hne].
      * rewrite IH. split; intros [rest Hr]; exists rest.
        -- by rewrite Hr.
        -- by injection Hr.
      * split; [discriminate | intros [rest Hr]; injection Hr; congruence].
Qed.

Lemma contains_empty_hay (needle : string) :
  PyString.contains needle "" = String.prefix needle "".
Proof. unfold PyString.contains. apply orb_false_r. Qed.

Lemma contains_cons (needle : string) (c : ascii) (hay : string) :
  PyString.contains needle (String c hay) =
  String.prefix needle (String c hay) || PyString.contains needle hay.
Proof. reflexivity. Qed.

Lemma contains_iff (needle hay : string) :
  PyString.contains needle hay = true <->
  exists pre post, hay = pre ++ needle ++ post.
Proof.
  induction hay as [|c hay IH].
  - rewrite contains_empty_hay, prefix_iff. split.
    + intros [rest Hr]. by exists "", rest.
    + intros [pre [post Hp]]. destruct pre; [by exists post | discriminate].
  - rewrite contains_cons, orb_true_iff, prefix_iff, IH. split.
    + intros [[rest Hr] | [pre [post Hp]]].
      * by exists "", rest.
      * exists (String c pre), post. simpl. by rewrite Hp.
    + intros [pre [post Hp]]. destruct pre as [|d pre]; simpl in Hp.
      * left. by exists post.
      * right. injection Hp as _ Hp. by exists pre, post.
Qed.

Lemma string_app_assoc (a b c : string) : (a ++ b) ++ c = a ++ b ++ c.
Proof.
  induction a as [|x a IH]; [done |].
  change (String x ((a ++ b) ++ c) = String x (a ++ b ++ c)). by rewrite IH.
Qed.

Lemma string_app_empty_r (a : string) : a ++ "" = a.
Proof.
  induction a as [|x a IH]; [done |].
  change (String x (a ++ "") = String x a). by rewrite IH.
Qed.

Lemma lower_app (a b : string) :
  PyString.lower (a ++ b) = PyString.lower a ++ PyString.lower b.
Proof. induction a as [|c a IH]; simpl; [done | by rewrite IH]. Qed.

Lemma lower_split (t x y : string) :
  PyString.lower t = x ++ y ->
  exists a b, t = a ++ b /\ PyString.lower a = x /\ PyString.lower b = y.
Proof.
  revert t. induction x as [|c x IH]; intros t Ht; simpl in Ht.
  - by exists "", t.
  - destruct t as [|d t]; [discriminate |]. simpl in Ht.
    injection Ht as Hc Ht. destruct (IH t Ht) as (a & b & -> & Ha & Hb).
    exists (String d a), b. simpl. by rewrite Hc, Ha.
Qed.

Lemma is_upper_iff (c : ascii) :
  PyString.is_upper c = true <-> 65 <= nat_of_ascii c <= 90.
Proof.
  unfold PyString.is_upper. rewrite andb_true_iff, !Nat.leb_le. lia.
Qed.

Lemma lower_char_code (c : ascii) :
  nat_of_ascii (PyString.lower_char c) =
  if PyString.is_upper c then nat_of_ascii c + 32 else nat_of_ascii c.
Proof.
  unfold PyString.lower_char. destruct (PyString.is_upper c) eqn:Hu; [|done].
  apply is_upper_iff in Hu. apply nat_ascii_embedding. lia.
Qed.

Lemma nat_of_ascii_inj (c d : ascii) : nat_of_ascii c = nat_of_ascii d -> c = d.
Proof.
  intros H. rewrite <- (ascii_nat_embedding c), <- (ascii_nat_embedding d).
  by rewrite H.
Qed.

Lemma is_upper_cases (c : ascii) :
  (PyString.is_upper c = true /\ 65 <= nat_of_ascii c <= 90) \/
  (PyString.is_upper c = false /\ ~ 65 <= nat_of_ascii c <= 90).
Proof.
  destruct (PyString.is_upper c) eqn:Hu.
  - left. split; [done | by apply is_upper_iff].
  - right. split; [done |]. rewrite <- is_upper_iff. congruence.
Qed.

Lemma lower_char_same_letter (c d : ascii) :
  PyString.lower_char c = PyString.lower_char d <-> same_letter c d.
Proof.
  unfold same_letter. split.
  - intros H. apply (f_equal nat_of_ascii) in H. rewrite !lower_char_code in H.
    destruct (is_upper_cases c) as [[Hc Rc] | [Hc Rc]],
             (is_upper_cases d) as [[Hd Rd] | [Hd Rd]];
      rewrite Hc, Hd in H.
    + left. apply nat_of_ascii_inj. lia.
    + right; left. lia.
    + right; right. lia.
    + left. by apply nat_of_ascii_inj.
  - intros H. apply nat_of_ascii_inj. rewrite !lower_char_code.
    destruct (is_upper_cases c) as [[Hc Rc] | [Hc Rc]],
             (is_upper_cases d) as [[Hd Rd] | [Hd Rd]];
      rewrite Hc, Hd; destruct H as [-> | [[? ?] | [? ?]]]; lia.
Qed.

Lemma lower_eq_iff (s t : string) :
  PyString.lower s = PyString.lower t <-> eq_ignoring_case s t.
Proof.
  split.
  - revert t. induction s as [|c s IH]; intros [|d t] H; simpl in H;
      try discriminate; [constructor |].
    injection H as Hc Hs. constructor; [by apply lower_char_same_letter | by apply IH].
  - induction 1 as [|c d s t Hcd _ IH]; simpl; [done |].
    apply lower_char_same_letter in Hcd. by rewrite Hcd, IH.
Qed.

(** The test of the handlers is the case-insensitive substring relation. *)
Lemma contains_lower_iff (query text : string) :
  PyString.contains (PyString.lower query) (PyString.lower text) = true <->
  ci_substring query text.
Proof.
  rewrite contains_iff. unfold ci_substring. split.
  - intros (pre' & post' & H).
    apply lower_split in H as (pre & rest & -> & Hpre & Hrest).
    apply lower_split in Hrest as (mid & post & -> & Hmid & Hpost).
    exists pre, mid, post. split; [done | by apply lower_eq_iff].
  - intros (pre & mid & post & -> & Hmid). apply lower_eq_iff in Hmid.
    exists (PyString.lower pre), (PyString.lower post).
    by rewrite !lower_app, Hmid.
Qed.

End StringFacts.

(** ** Tool handlers *)

Section Tools.
Context (gh : GithubUtils).

Lemma reraise_id {A : Type} (body : result A) :
  try_except body log_and_reraise = body.
Proof. by destruct body. Qed.

Lemma coerce_optional_cases (v default : PyVal) :
  coerce_optional v default =
  match v with
  | PyNone => PyNone
  | PyStr s => PyStr s
  | _ => default
  end.
Proof. by destruct v. Qed.

Lemma occurs_lowered_iff (rt : PyRuntime) (query text : string) :
  PyString.contains (str_lower query) (str_lower text) = true <->
  occurs_lowered query text.
Proof. apply contains_iff. Qed.

(** On ASCII text the test is the case-insensitive substring relation. *)
Lemma contains_str_lower_iff (rt : PyRuntime) (query text : string) :
  PyString.is_ascii query = true -> PyString.is_ascii text = true ->
  PyString.contains (str_lower query) (str_lower text) = true <->
  ci_substring query text.
Proof.
  intros Hq Ht. rewrite (str_lower_ascii query Hq), (str_lower_ascii text Ht).
  apply contains_lower_iff.
Qed.





Lemma analyze_issues_ok (rt : PyRuntime) (ctx : GitHubDependencies)
    (query : string) (state : PyVal) (fetched : list Issue) :
  list_repository_issues (repo_name ctx) (coerce_optional state (PyStr "all"))
                         (token ctx) = Ok fetched ->
  analyze_issues ctx (PyStr query) state =
  Ok (let matching := List.filter (issue_matches (str_lower query)) fetched in
      {| issues := matching;
         issues_summary :=
           issues_summary_text (length matching) (PyStr query)
                               (coerce_optional state (PyStr "all")) |}).
Proof. intros H. unfold analyze_issues. by rewrite H. Qed.

Lemma analyze_commits_ok (rt : PyRuntime) (ctx : GitHubDependencies)
    (query : string) (path : PyVal) (fetched : list Commit) :
  list_repository_commits (repo_name ctx) (coerce_optional path PyNone)
                          (token ctx) = Ok fetched ->
  analyze_commits ctx (PyStr query) path =
  Ok (let matching := List.filter (commit_matches (str_lower query)) fetched in
      {| commits := matching;
         commits_summary :=
           commits_summary_text (length matching) (PyStr query)
                                (coerce_optional path PyNone) |}).
Proof. intros H. unfold analyze_commits. by rewrite H. Qed.


Lemma commits_summary_found (n : nat) (query path : PyVal) :
  n <> 0 ->
  String.prefix ("Found " ++ PyString.of_nat n ++ " commits")
                (commits_summary_text n query path) = true.
Proof.
  intros Hn. unfold commits_summary_text.
  destruct (Nat.eqb_spec n 0) as [|_]; [done |].
  apply prefix_iff.
  exists (" matching '" ++ py_format query ++ "'" ++ in_path_text path).
  by rewrite !string_app_assoc.
Qed.

End Tools.








(** *** Coercion of optional parameters *)

Lemma analyze_issues_defaults_state (gh : GithubUtils) (rt : PyRuntime)
    (ctx : GitHubDependencies) (query state : PyVal) :
  is_str state = false -> state <> PyNone ->
  analyze_issues ctx query state = analyze_issues ctx query (PyStr "all").
Proof. intros Hs Hn. by destruct state. Qed.

Lemma list_commits_defaults_path (gh : GithubUtils) (ctx : GitHubDependencies)
    (path : PyVal) :
  is_str path = false -> list_commits ctx path = list_commits ctx PyNone.
Proof. intros Hs. by destruct path. Qed.

Lemma analyze_commits_defaults_path (gh : GithubUtils) (rt : PyRuntime)
    (ctx : GitHubDependencies) (query path : PyVal) :
  is_str path = false ->
  analyze_commits ctx query path = analyze_commits ctx query PyNone.
Proof. intros Hs. by destruct path. Qed.

Lemma list_directory_contents_forwards_path (gh : GithubUtils)
    (ctx : GitHubDependencies) (path : PyVal) (e : exn) :
  get_repository_content (repo_name ctx) path (token ctx) = Raise e ->
  list_directory_contents ctx path = Raise e.
Proof. intros H. unfold list_directory_contents. by rewrite H. Qed.

(** C2. Every optional parameter of every tool is to be replaced by its
    declared default when it arrives with a value that is not a string.
    [analyze_issues], [list_commits] and [analyze_commits] do so (lemmas
    above); [list_issues] does not: it hands [state] to the collaborator as
    received, so the marker object reaches a collaborator that asserts a
    string and the call raises, where [analyze_issues] on the same input
    answers for the state "all". *)
Theorem list_issues_forwards_state_unchanged :
  (forall (gh : GithubUtils) (ctx : GitHubDependencies) (state : PyVal),
      list_issues ctx state =
      list_repository_issues (repo_name ctx) state (token ctx)) /\
  list_issues (H := Sample.github) Sample.deps FieldInfo =
    Raise (AssertionError "FieldInfo") /\
  list_issues (H := Sample.github) Sample.deps (PyStr "all") =
    Ok [Sample.fix_bug; Sample.add_feature] /\
  (forall rt : PyRuntime,
      analyze_issues (H := Sample.github) Sample.deps (PyStr "bug") FieldInfo =
      Ok {| issues := [Sample.fix_bug];
            issues_summary := "Found 1 issues matching 'bug' with state 'all'." |}).
Proof.
  split; [| split; [done | split; [done |]]].
  - intros gh ctx state. unfold list_issues. rewrite reraise_id.
    by destruct (list_repository_issues _ _ _).
  - intros rt.
    rewrite (analyze_issues_ok Sample.github rt Sample.deps "bug" FieldInfo
               [Sample.fix_bug; Sample.add_feature] eq_refl).
    cbn. unfold issue_matches. cbn. rewrite !str_lower_ascii by reflexivity.
    reflexivity.
Qed.

(** *** Shape of the collaborator's output *)

(** C7. The directory-listing tool raises the shape error when the content
    at the path is a single entry (a dictionary, whatever its type tag, so
    in particular a file) and does not return an empty list; the
    file-content tool raises the shape error when the content is not a
    single entry of type "file". *)
Theorem content_tools_validate_shape (gh : GithubUtils) :
  (forall (ctx : GitHubDependencies) (path : PyVal) (d : FileDict),
      get_repository_content (repo_name ctx) path (token ctx) = Ok (ContentDict d) ->
      list_directory_contents ctx path =
      Raise (ValueError ("Path '" ++ py_format path ++
                         "' does not point to a directory"))) /\
  (forall (ctx : GitHubDependencies) (path : PyVal) (c : Content),
      get_repository_content (repo_name ctx) path (token ctx) = Ok c ->
      (forall d, c = ContentDict d -> file_type d <> "file") ->
      get_file_content ctx path =
      Raise (ValueError ("Path '" ++ py_format path ++
                         "' does not point to a file"))).
Proof.
  split.
  - intros ctx path d Hc. unfold list_directory_contents. by rewrite Hc.
  - intros ctx path c Hc Hshape. unfold get_file_content. rewrite Hc.
    destruct c as [d | l]; [| done].
    cbn. destruct (String.eqb_spec (file_type d) "file") as [Ht | _]; [| done].
    by destruct (Hshape d eq_refl).
Qed.

Lemma content_tools_validate_shape_witness :
  list_directory_contents (H := Sample.github) Sample.deps (PyStr "README.md") =
    Raise (ValueError "Path 'README.md' does not point to a directory") /\
  get_file_content (H := Sample.github) Sample.deps (PyStr "src") =
    Raise (ValueError "Path 'src' does not point to a file") /\
  get_file_content (H := Sample.github) Sample.deps (PyStr "latest") =
    Raise (ValueError "Path 'latest' does not point to a file").
Proof.
  split; [| split].
  - apply (proj1 (content_tools_validate_shape Sample.github)
                 Sample.deps (PyStr "README.md") Sample.readme).
    reflexivity.
  - apply (proj2 (content_tools_validate_shape Sample.github)
                 Sample.deps (PyStr "src") (ContentList Sample.src_entries)).
    + reflexivity.
    + intros d Hd. discriminate Hd.
  - apply (proj2 (content_tools_validate_shape Sample.github)
                 Sample.deps (PyStr "latest") (ContentDict Sample.link)).
    + reflexivity.
    + intros d Hd. injection Hd as <-. discriminate.
Defined.

(** Both content tools return the content when its shape fits. *)
Lemma content_tools_accept_fitting_shape (gh : GithubUtils)
    (ctx : GitHubDependencies) (path : PyVal) :
  (forall l, get_repository_content (repo_name ctx) path (token ctx) = Ok (ContentList l) ->
             list_directory_contents ctx path = Ok l) /\
  (forall d, get_repository_content (repo_name ctx) path (token ctx) = Ok (ContentDict d) ->
             file_type d = "file" -> get_file_content ctx path = Ok d).
Proof.
  split.
  - intros l H. unfold list_directory_contents. by rewrite H.
  - intros d H Ht. unfold get_file_content. rewrite H. cbn. by rewrite Ht.
Qed.

(** ** Context composer *)

Section Composer.
Context (gh : GithubUtils) (ck : Clock).

Lemma split_length (sep : ascii) (s : string) :
  length (PyString.split sep s) = S (PyString.count sep s).
Proof.
  induction s as [|c s IH]; [done |]. cbn [PyString.split PyString.count].
  destruct (Ascii.eqb c sep); cbn [length]; [by rewrite IH |].
  destruct (PyString.split sep s) as [|w ws]; [discriminate IH | exact IH].
Qed.

Lemma split_one_separator (s : string) :
  PyString.count "/" s = 1 ->
  exists owner name, PyString.split "/" s = [owner; name] /\ owner_of s = owner.
Proof.
  intros Hc. pose proof (split_length "/" s) as Hl. rewrite Hc in Hl.
  unfold owner_of.
  destruct (PyString.split "/" s) as [|a [|b [|c rest]]]; try discriminate Hl.
  by exists a, b.
Qed.

Lemma unpack2_other_length (parts : list string) :
  length parts <> 2 -> exists msg, unpack2 parts = Raise (ValueError msg).
Proof.
  intros Hl. destruct parts as [|a [|b [|c rest]]]; cbn; eauto. done.
Qed.

Lemma find_absent (name : string) (repos : list RepoInfo) :
  (forall r, In r repos -> full_name r <> name) ->
  List.find (fun r => String.eqb (full_name r) name) repos = None.
Proof.
  induction repos as [|r repos IH]; intros Hall; [done |]. cbn.
  destruct (String.eqb_spec (full_name r) name) as [Heq | _].
  - destruct (Hall r); [by left | done].
  - apply IH. intros r' Hin. apply Hall. by right.
Qed.

Lemma minimal_instruction_mentions (name : string) :
  minimal_instruction name <> "" /\
  PyString.contains name (minimal_instruction name) = true.
Proof.
  split; [done |]. apply contains_iff.
  exists "You are currently answering questions about the repository: ", "".
  unfold minimal_instruction. by rewrite string_app_empty_r.
Qed.

End Composer.

(** C6. For a repository identifier of the form owner/name, when the fetch
    of the repository metadata fails, whatever the exception, or the
    repository is not among those listed, the context composer does not
    fail: it returns the minimal instruction, a non-empty text that contains
    the repository identifier. *)
Theorem repository_context_falls_back (gh : GithubUtils) (ck : Clock)
    (ctx : GitHubDependencies) :
  PyString.count "/" (repo_name ctx) = 1 ->
  ((exists e, list_user_repositories (token ctx) (owner_of (repo_name ctx)) = Raise e) \/
   (exists repos,
       list_user_repositories (token ctx) (owner_of (repo_name ctx)) = Ok repos /\
       forall r, In r repos -> full_name r <> repo_name ctx)) ->
  exists text,
    repository_context ctx = Ok text /\
    text = minimal_instruction (repo_name ctx) /\
    text <> "" /\
    PyString.contains (repo_name ctx) text = true.
Proof.
  intros Hone Hfail.
  destruct (split_one_separator _ Hone) as (owner & name & Hsplit & Howner).
  exists (minimal_instruction (repo_name ctx)).
  split; [| split; [done | apply minimal_instruction_mentions]].
  unfold repository_context. rewrite Hsplit. cbn. rewrite Howner in Hfail.
  destruct Hfail as [[e He] | (repos & Hr & Habsent)].
  - by rewrite He.
  - rewrite Hr. cbn. by rewrite (find_absent _ _ Habsent).
Qed.

Lemma repository_context_falls_back_witness :
  (exists text,
      repository_context (H := Sample.github) (H0 := Sample.clock) Sample.deps = Ok text /\
      text = minimal_instruction "octocat/hello" /\
      text <> "" /\
      PyString.contains "octocat/hello" text = true) /\
  (exists text,
      repository_context (H := Sample.github_empty) (H0 := Sample.clock) Sample.deps
      = Ok text /\
      text = minimal_instruction "octocat/hello" /\
      text <> "" /\
      PyString.contains "octocat/hello" text = true).
Proof.
  split.
  - apply (repository_context_falls_back Sample.github Sample.clock Sample.deps).
    + reflexivity.
    + left. exists (GithubException "404 Not Found"). reflexivity.
  - apply (repository_context_falls_back Sample.github_empty Sample.clock Sample.deps).
    + reflexivity.
    + right. exists []. split; [reflexivity | intros r []].
Defined.

(** C10. The fallback of the context composer covers the metadata fetch
    only: the identifier is split on "/" and unpacked into two components
    before the protected block, so for an identifier that does not contain
    exactly one separator the composer raises [ValueError], whatever the
    collaborator does; "abc" and "a/b/c" are such identifiers. *)
Theorem repository_context_needs_owner_name (gh : GithubUtils) (ck : Clock)
    (ctx : GitHubDependencies) :
  PyString.count "/" (repo_name ctx) <> 1 ->
  exists msg, repository_context ctx = Raise (ValueError msg).
Proof.
  intros Hcount.
  destruct (unpack2_other_length (PyString.split "/" (repo_name ctx)))
    as [msg Hmsg].
  - rewrite split_length. lia.
  - exists msg. unfold repository_context. by rewrite Hmsg.
Qed.

Lemma repository_context_needs_owner_name_witness :
  (exists msg,
      repository_context (H := Sample.github) (H0 := Sample.clock)
        {| token := "ghp_token"; repo_name := "abc" |} = Raise (ValueError msg)) /\
  (exists msg,
      repository_context (H := Sample.github_empty) (H0 := Sample.clock)
        {| token := "ghp_token"; repo_name := "a/b/c" |} = Raise (ValueError msg)).
Proof.
  split.
  - apply (repository_context_needs_owner_name Sample.github Sample.clock
             {| token := "ghp_token"; repo_name := "abc" |}).
    cbn. lia.
  - apply (repository_context_needs_owner_name Sample.github_empty Sample.clock
             {| token := "ghp_token"; repo_name := "a/b/c" |}).
    cbn. lia.
Defined.

(** ** Key derivation *)

Section KeyDerivation.

Lemma string_length_app (a b : string) :
  String.length (a ++ b) = String.length a + String.length b.
Proof.
  induction a as [|x a IH]; [done |].
  change (S (String.length (a ++ b)) = S (String.length a + String.length b)).
  by rewrite IH.
Qed.

Lemma string_app_inv_head (p a b : string) : p ++ a = p ++ b -> a = b.
Proof.
  induction p as [|x p IH]; [done |]. intros H.
  change (String x (p ++ a) = String x (p ++ b)) in H. injection H as H. auto.
Qed.

Lemma string_app_inv_tail (a b t : string) : a ++ t = b ++ t -> a = b.
Proof.
  revert b. induction a as [|x a IH]; intros [|y b] H.
  - done.
  - apply (f_equal String.length) in H.
    change (String.length t = S (String.length (b ++ t))) in H.
    rewrite string_length_app in H. lia.
  - apply (f_equal String.length) in H.
    change (S (String.length (a ++ t)) = String.length t) in H.
    rewrite string_length_app in H. lia.
  - change (String x (a ++ t) = String y (b ++ t)) in H.
    injection H as -> H. f_equal. by apply IH.
Qed.

Lemma split_single (sep : ascii) (s w : string) :
  PyString.split sep s = [w] -> s = w /\ PyString.count sep s = 0.
Proof.
  revert w. induction s as [|c s IH]; intros w H.
  - injection H as <-. done.
  - cbn [PyString.split PyString.count] in *.
    destruct (Ascii.eqb c sep).
    + pose proof (split_length sep s) as Hl.
      injection H as _ H. rewrite H in Hl. cbn in Hl. lia.
    + destruct (PyString.split sep s) as [|v vs] eqn:Hs.
      { pose proof (split_length sep s) as Hl. rewrite Hs in Hl. cbn in Hl. lia. }
      injection H as <- ->. destruct (IH v eq_refl) as [-> Hc]. by rewrite Hc.
Qed.

Lemma split_pair (sep : ascii) (s o n : string) :
  PyString.split sep s = [o; n] ->
  s = o ++ String sep n /\ PyString.count sep o = 0 /\ PyString.count sep n = 0.
Proof.
  revert o. induction s as [|c s IH]; intros o H; [discriminate H |].
  cbn [PyString.split] in H.
  destruct (Ascii.eqb_spec c sep) as [-> | Hne].
  - injection H as <- H. apply split_single in H as [-> Hc]. done.
  - destruct (PyString.split sep s) as [|v vs] eqn:Hs; [discriminate H |].
    injection H as <- ->. destruct (IH v eq_refl) as (-> & Ho & Hn).
    split; [done |]. split; [| done]. cbn [PyString.count].
    destruct (Ascii.eqb_spec c sep); [done | by rewrite Ho].
Qed.

Lemma replace_app (old new : ascii) (a b : string) :
  PyString.replace old new (a ++ b) =
  PyString.replace old new a ++ PyString.replace old new b.
Proof.
  induction a as [|x a IH]; [done |].
  change (String (if Ascii.eqb x old then new else x)
                 (PyString.replace old new (a ++ b)) =
          String (if Ascii.eqb x old then new else x)
                 (PyString.replace old new a ++ PyString.replace old new b)).
  by rewrite IH.
Qed.

Lemma replace_absent (old new : ascii) (s : string) :
  PyString.count old s = 0 -> PyString.replace old new s = s.
Proof.
  induction s as [|c s IH]; [done |]. cbn [PyString.count PyString.replace].
  destruct (Ascii.eqb c old); [discriminate |]. intros H. by rewrite IH.
Qed.

Lemma replace_removes (old new : ascii) (s : string) :
  old <> new -> PyString.count old (PyString.replace old new s) = 0.
Proof.
  intros Hne. induction s as [|c s IH]; [done |].
  cbn [PyString.count PyString.replace]. rewrite IH.
  destruct (Ascii.eqb_spec c old) as [-> | Hc].
  - by destruct (Ascii.eqb_spec new old) as [-> | _].
  - by destruct (Ascii.eqb_spec c old).
Qed.

(** The first occurrence of a separator determines both sides. *)
Lemma first_separator_inj (sep : ascii) (o1 o2 n1 n2 : string) :
  PyString.count sep o1 = 0 -> PyString.count sep o2 = 0 ->
  o1 ++ String sep n1 = o2 ++ String sep n2 -> o1 = o2 /\ n1 = n2.
Proof.
  revert o2. induction o1 as [|x o1 IH]; intros [|y o2] H1 H2 H.
  - by injection H.
  - change (String sep n1 = String y (o2 ++ String sep n2)) in H.
    injection H as <- _. cbn in H2. rewrite Ascii.eqb_refl in H2. discriminate.
  - change (String x (o1 ++ String sep n1) = String sep n2) in H.
    injection H as -> _. cbn in H1. rewrite Ascii.eqb_refl in H1. discriminate.
  - change (String x (o1 ++ String sep n1) = String y (o2 ++ String sep n2)) in H.
    injection H as -> H. cbn in H1, H2.
    destruct (Ascii.eqb y sep); [discriminate |].
    destruct (IH o2 H1 H2 H) as [-> ->]. done.
Qed.

Lemma count_app (c : ascii) (a b : string) :
  PyString.count c (a ++ b) = PyString.count c a + PyString.count c b.
Proof.
  induction a as [|x a IH]; [done |].
  change (String x a ++ b) with (String x (a ++ b)).
  cbn [PyString.count]. rewrite IH. lia.
Qed.

(** The file name derived from any non-empty identifier. *)
Lemma get_history_filename_form (r : string) :
  r <> "" ->
  get_history_filename r =
  Some ("chat_history/" ++ PyString.replace "/" "_" r ++ "_history.json").
Proof.
  intros Hr. unfold get_history_filename.
  destruct (String.eqb_spec r "") as [-> | _]; [done |]. f_equal.
  unfold os_path_join.
  destruct (String.prefix "/" (PyString.replace "/" "_" r ++ "_history.json"))
    eqn:Hp; [| reflexivity].
  apply prefix_iff in Hp as [rest Hp].
  apply (f_equal (PyString.count "/")) in Hp.
  rewrite count_app, replace_removes in Hp by done.
  change ("/" ++ rest) with (String "/" rest) in Hp.
  cbn [PyString.count] in Hp. cbn in Hp. lia.
Qed.

Lemma valid_repo_id_shape (r : string) :
  valid_repo_id r = true ->
  exists owner name,
    PyString.split "/" r = [owner; name] /\ owner <> "" /\ name <> "".
Proof.
  unfold valid_repo_id.
  destruct (PyString.split "/" r) as [|o [|n [|x rest]]]; try discriminate.
  intros [Ho Hn]%andb_true_iff. exists o, n. split; [done |].
  split; [by destruct (String.eqb_spec o "") | by destruct (String.eqb_spec n "")].
Qed.

End KeyDerivation.

Lemma safe_name_of_valid (r owner name : string) :
  PyString.split "/" r = [owner; name] ->
  r = owner ++ String "/" name /\
  PyString.replace "/" "_" r = owner ++ String "_" name /\
  PyString.count "/" name = 0.
Proof.
  intros Hs. apply split_pair in Hs as (-> & Ho & Hn).
  split; [done |]. split; [| done].
  rewrite replace_app. change (String "/" name) with ("/" ++ name).
  rewrite replace_app, (replace_absent _ _ owner Ho), (replace_absent _ _ name Hn).
  reflexivity.
Qed.

(** Two valid identifiers with the same derived file name. *)
Example history_filename_collision :
  valid_repo_id "mona_acme/site" = true /\
  valid_repo_id "mona/acme_site" = true /\
  get_history_filename "mona_acme/site" = Some "chat_history/mona_acme_site_history.json" /\
  get_history_filename "mona/acme_site" = Some "chat_history/mona_acme_site_history.json".
Proof. by repeat split. Qed.

(** C9, as stated: the derived file names of two distinct valid identifiers
    differ.  It fails: "mona_acme/site" and "mona/acme_site" are distinct,
    both of the form owner/name, and both give
    "chat_history/mona_acme_site_history.json". *)
Lemma get_history_filename_not_injective :
  ~ (forall r1 r2 : string,
        valid_repo_id r1 = true -> valid_repo_id r2 = true -> r1 <> r2 ->
        get_history_filename r1 <> get_history_filename r2).
Proof.
  intros Hinj.
  destruct history_filename_collision as (Hv1 & Hv2 & Hf1 & Hf2).
  apply (Hinj "mona_acme/site" "mona/acme_site" Hv1 Hv2); [discriminate |].
  by rewrite Hf1, Hf2.
Qed.

(** C9, amended. The key derivation is a function of the identifier alone,
    defined on every valid identifier, and it is injective on the valid
    identifiers whose owner part contains no underscore: two such
    identifiers with the same derived file name are equal. *)
Theorem get_history_filename_injective (r1 r2 : string) :
  valid_repo_id r1 = true -> valid_repo_id r2 = true ->
  PyString.count "_" (owner_of r1) = 0 ->
  PyString.count "_" (owner_of r2) = 0 ->
  exists f1 f2,
    get_history_filename r1 = Some f1 /\
    get_history_filename r2 = Some f2 /\
    (f1 = f2 -> r1 = r2).
Proof.
  intros Hv1 Hv2 Hu1 Hu2.
  apply valid_repo_id_shape in Hv1 as (o1 & n1 & Hs1 & Ho1 & _).
  apply valid_repo_id_shape in Hv2 as (o2 & n2 & Hs2 & Ho2 & _).
  unfold owner_of in Hu1, Hu2. rewrite Hs1 in Hu1. rewrite Hs2 in Hu2.
  destruct (safe_name_of_valid _ _ _ Hs1) as (Hr1 & Hsafe1 & _).
  destruct (safe_name_of_valid _ _ _ Hs2) as (Hr2 & Hsafe2 & _).
  do 2 eexists. split; [| split].
  - apply get_history_filename_form. rewrite Hr1. by destruct o1.
  - apply get_history_filename_form. rewrite Hr2. by destruct o2.
  - intros Heq. apply string_app_inv_head, string_app_inv_tail in Heq.
    rewrite Hsafe1, Hsafe2 in Heq.
    apply first_separator_inj in Heq as [-> ->]; [| done | done].
    by rewrite Hr1, Hr2.
Qed.

Lemma get_history_filename_injective_witness :
  exists f1 f2,
    get_history_filename "octocat/hello_world" = Some f1 /\
    get_history_filename "octocat/hello" = Some f2 /\
    (f1 = f2 -> "octocat/hello_world" = "octocat/hello").
Proof.
  apply (get_history_filename_injective "octocat/hello_world" "octocat/hello");
    reflexivity.
Defined.

(** ** The serialisers *)

Section SerialiserFacts.
Import Pydantic.




(** *** Strings *)


(** *** Numbers *)








(** *** Values *)


















(** *** Validation *)









End SerialiserFacts.

(** ** Conversation store *)

Create HintDb io discriminated.
#[local] Hint Unfold save_messages_to_json load_messages_from_json dump_to
  io_try os_path_exists open_w write_text read_text io_lift
  mbind mret io_bind io_ret : io.

(** Expose the state passing of a file operation. *)
Ltac unfold_io := autounfold with io; cbn.

Section StoreFacts.
Context {ModelMessage Jsonable : Type} (codec : MessageCodec ModelMessage Jsonable).

(** [load_messages_from_json] catches every exception and leaves the files
    as they are. *)
Lemma load_never_raises (filename : string) (fs : FileSystem) :
  exists messages, load_messages_from_json filename fs = (Ok messages, fs).
Proof.
  unfold_io.
  destruct (bool_decide (is_Some (fs_files fs !! filename))); cbn; [| eauto].
  destruct (bool_decide (filename ∈ fs_denied fs)); cbn; [eauto |].
  destruct (fs_files fs !! filename) as [text |]; cbn; [| eauto].
  destruct (json_load text) as [j | e]; cbn; [| eauto].
  destruct (validate_python j) as [ms | e]; cbn; eauto.
Qed.

(** [save_messages_to_json] returns normally whatever happens. *)
Lemma save_never_raises (messages : list ModelMessage) (filename : string)
    (fs : FileSystem) :
  fst (save_messages_to_json messages filename fs) = Ok tt.
Proof.
  unfold_io.
  destruct (to_jsonable_python messages) as [j | e]; cbn; [| done].
  destruct (bool_decide (filename ∈ fs_denied fs)); cbn; [done |].
  destruct (json_dump j) as [text [e |]]; by cbn.
Qed.

(** What a successful save leaves in the file. *)
Lemma save_writes_text (messages : list ModelMessage) (filename : string)
    (fs : FileSystem) (serialized : Jsonable) (text : string) :
  filename ∉ fs_denied fs ->
  to_jsonable_python messages = Ok serialized ->
  json_dump serialized = (text, None) ->
  snd (save_messages_to_json messages filename fs) =
  {| fs_files := <[filename := text]> (fs_files fs); fs_denied := fs_denied fs |}.
Proof.
  intros Hopen Hser Hdump.
  unfold_io. rewrite Hser. cbn. rewrite bool_decide_eq_false_2 by done. cbn.
  rewrite Hdump. cbn. rewrite lookup_insert_eq. cbn.
  by rewrite insert_insert_eq.
Qed.

Lemma load_reads_text (filename : string) (fs : FileSystem) (text : string)
    (serialized : Jsonable) (messages : list ModelMessage) :
  filename ∉ fs_denied fs ->
  fs_files fs !! filename = Some text ->
  json_load text = Ok serialized ->
  validate_python serialized = Ok messages ->
  load_messages_from_json filename fs = (Ok messages, fs).
Proof.
  intros Hopen Hfile Hload Hval.
  unfold_io. rewrite Hfile. rewrite bool_decide_eq_true_2 by eauto. cbn.
  rewrite bool_decide_eq_false_2 by done. cbn. rewrite Hfile, Hload. cbn.
  by rewrite Hval.
Qed.

End StoreFacts.

(** C8. Loading the history from a location where no file exists returns the
    empty sequence of messages, without raising and without touching the
    files. *)
Theorem load_missing_file_is_empty {ModelMessage Jsonable : Type}
    (codec : MessageCodec ModelMessage Jsonable)
    (filename : string) (fs : FileSystem) :
  fs_files fs !! filename = None ->
  load_messages_from_json filename fs = (Ok [], fs).
Proof.
  intros Hmissing.
  unfold_io. rewrite Hmissing. rewrite bool_decide_eq_false_2; [done |].
  by intros [text Ht].
Qed.

Lemma load_missing_file_is_empty_witness :
  load_messages_from_json (MessageCodec0 := Sample.line_codec)
    "chat_history/octocat_hello_history.json" Sample.empty_fs
  = (Ok [], Sample.empty_fs).
Proof.
  apply (load_missing_file_is_empty Sample.line_codec
           "chat_history/octocat_hello_history.json" Sample.empty_fs).
  reflexivity.
Defined.

(** Saving and loading at one location, from the two halves above: a load
    after a save returns what the deserialisers make of the text written. *)
Lemma load_after_save_general {ModelMessage Jsonable : Type}
    (codec : MessageCodec ModelMessage Jsonable)
    (messages reloaded : list ModelMessage) (filename : string) (fs : FileSystem)
    (serialized parsed : Jsonable) (text : string) :
  filename ∉ fs_denied fs ->
  to_jsonable_python messages = Ok serialized ->
  json_dump serialized = (text, None) ->
  json_load text = Ok parsed ->
  validate_python parsed = Ok reloaded ->
  load_messages_from_json filename
    (snd (save_messages_to_json messages filename fs)) =
  (Ok reloaded, snd (save_messages_to_json messages filename fs)).
Proof.
  intros Hopen Hser Hdump Hload Hval.
  rewrite (save_writes_text codec _ _ _ _ _ Hopen Hser Hdump).
  apply (load_reads_text codec _ _ text parsed); cbn; try done.
  apply lookup_insert_eq.
Qed.





Example details_conversation_as_loaded :
  List.map Pydantic.as_loaded Sample.details_conversation =
  [ Pydantic.ModelRequest
      [Pydantic.UserPromptPart "When was it created?" "2025-01-01T12:00:00Z"];
    Pydantic.ModelResponse
      [Pydantic.ToolCallPart "get_repo_details" "{}" (Some "call_1")]
      "2025-01-01T12:00:01Z";
    Pydantic.ModelRequest
      [Pydantic.ToolReturnPart "get_repo_details"
         (Pydantic.DDict
            [("full_name", Pydantic.DStr "octocat/hello");
             ("description", Pydantic.DNone);
             ("private", Pydantic.DBool false);
             ("created_at", Pydantic.DStr "2011-01-26T19:01:12Z");
             ("stargazers_count", Pydantic.DInt 7)])
         (Some "call_1") "2025-01-01T12:00:02Z"];
    Pydantic.ModelResponse
      [Pydantic.TextPart "It was created in January 2011."]
      "2025-01-01T12:00:03Z" ].
Proof. reflexivity. Qed.

(** ** Result schema *)

Section ResultSchema.






End ResultSchema.




(** * Further properties *)

(** ** Tool handlers and context composer *)

Section MoreStringFacts.

Lemma contains_empty_needle (s : string) : PyString.contains "" s = true.
Proof. apply contains_iff. by exists "", s. Qed.

Lemma contains_app_skip (needle a b : string) :
  PyString.contains needle b = true -> PyString.contains needle (a ++ b) = true.
Proof.
  rewrite !contains_iff. intros (pre & post & ->).
  exists (a ++ pre), post. by rewrite string_app_assoc.
Qed.

Lemma contains_at_head (needle post : string) :
  PyString.contains needle (needle ++ post) = true.
Proof. apply contains_iff. by exists "", post. Qed.

Lemma contains_trans (a b c : string) :
  PyString.contains a b = true -> PyString.contains b c = true ->
  PyString.contains a c = true.
Proof.
  rewrite !contains_iff. intros (p1 & q1 & ->) (p2 & q2 & ->).
  exists (p2 ++ p1), (q1 ++ q2). by rewrite !string_app_assoc.
Qed.

Lemma filter_all {A : Type} (f : A -> bool) (l : list A) :
  (forall x, In x l -> f x = true) -> List.filter f l = l.
Proof.
  induction l as [|x l IH]; intros Hall; [done |]. cbn.
  rewrite (Hall x) by (by left). f_equal. apply IH. intros y Hy. apply Hall. by right.
Qed.

End MoreStringFacts.

(** The tool returns the entry of the listing that carries the identifier
    asked for, and raises "not found" when the listing has none; it has no
    fallback. *)
Theorem get_repo_details_returns_named_repo (gh : GithubUtils)
    (ctx : GitHubDependencies) :
  (forall info : RepoInfo,
      get_repo_details ctx = Ok info ->
      full_name info = repo_name ctx /\
      PyString.count "/" (repo_name ctx) = 1 /\
      exists repos,
        list_user_repositories (token ctx) (owner_of (repo_name ctx)) = Ok repos /\
        In info repos) /\
  (forall repos : list RepoInfo,
      PyString.count "/" (repo_name ctx) = 1 ->
      list_user_repositories (token ctx) (owner_of (repo_name ctx)) = Ok repos ->
      (forall r, In r repos -> full_name r <> repo_name ctx) ->
      get_repo_details ctx =
      Raise (ValueError ("Repository " ++ repo_name ctx ++ " not found"))).
Proof.
  split.
  - intros info Hok. unfold get_repo_details in Hok. rewrite reraise_id in Hok.
    destruct (Nat.eq_dec (PyString.count "/" (repo_name ctx)) 1) as [Hone | Hne].
    + destruct (split_one_separator _ Hone) as (owner & name & Hsplit & Howner).
      rewrite Hsplit in Hok. cbn in Hok. rewrite Howner.
      destruct (list_user_repositories (token ctx) owner) as [repos | e];
        [| done]. cbn in Hok.
      destruct (List.find _ repos) as [found |] eqn:Hfind; [| done].
      injection Hok as ->. apply find_some in Hfind as [Hin Heq].
      apply String.eqb_eq in Heq. split; [done |]. split; [done |]. by exists repos.
    + destruct (unpack2_other_length (PyString.split "/" (repo_name ctx)))
        as [msg Hmsg]; [rewrite split_length; lia |].
      rewrite Hmsg in Hok. done.
  - intros repos Hone Hrepos Habsent. unfold get_repo_details.
    destruct (split_one_separator _ Hone) as (owner & name & Hsplit & Howner).
    rewrite Hsplit. cbn. rewrite Howner in Hrepos. rewrite Hrepos. cbn.
    by rewrite (find_absent _ _ Habsent).
Qed.

Lemma get_repo_details_returns_named_repo_witness :
  (full_name Sample.hello_repo = "octocat/hello" /\
   PyString.count "/" "octocat/hello" = 1 /\
   exists repos,
     list_user_repositories (GithubUtils := Sample.github_listing)
       "ghp_token" (owner_of "octocat/hello") = Ok repos /\
     In Sample.hello_repo repos) /\
  get_repo_details (H := Sample.github_empty) Sample.deps =
  Raise (ValueError "Repository octocat/hello not found").
Proof.
  split.
  - apply (proj1 (get_repo_details_returns_named_repo Sample.github_listing
                    Sample.deps) Sample.hello_repo).
    reflexivity.
  - apply (proj2 (get_repo_details_returns_named_repo Sample.github_empty
                    Sample.deps) []).
    + reflexivity.
    + reflexivity.
    + intros r [].
Defined.

(** For an identifier of the form owner/name the context composer always
    returns an instruction, enriched or minimal, and the instruction contains
    the identifier, whatever the collaborator does. *)
Theorem repository_context_mentions_repository (gh : GithubUtils) (ck : Clock)
    (ctx : GitHubDependencies) :
  PyString.count "/" (repo_name ctx) = 1 ->
  exists text,
    repository_context ctx = Ok text /\
    PyString.contains (repo_name ctx) text = true.
Proof.
  intros Hone.
  destruct (split_one_separator _ Hone) as (owner & name & Hsplit & _).
  unfold repository_context. rewrite Hsplit. cbn.
  destruct (list_user_repositories (token ctx) owner) as [repos | e]; cbn.
  - destruct (List.find _ repos) as [info |]; eexists; (split; [reflexivity |]).
    + unfold enriched_instruction.
      do 6 apply contains_app_skip. apply contains_at_head.
    + apply minimal_instruction_mentions.
  - eexists. split; [reflexivity | apply minimal_instruction_mentions].
Qed.

Lemma repository_context_mentions_repository_witness :
  exists text,
    repository_context (H := Sample.github_listing) (H0 := Sample.clock) Sample.deps
    = Ok text /\
    PyString.contains "octocat/hello" text = true.
Proof.
  apply (repository_context_mentions_repository Sample.github_listing
           Sample.clock Sample.deps).
  reflexivity.
Defined.

(** No tool handler swallows or alters an exception of the collaborator:
    what the data fetch raises is what the handler raises. *)
Theorem tools_propagate_collaborator_errors (gh : GithubUtils) (gs : GithubSearch)
    (rt : PyRuntime) (ctx : GitHubDependencies) (e : exn) :
  (forall state,
      list_repository_issues (repo_name ctx) state (token ctx) = Raise e ->
      list_issues ctx state = Raise e) /\
  (forall query state,
      list_repository_issues (repo_name ctx) (coerce_optional state (PyStr "all"))
                             (token ctx) = Raise e ->
      analyze_issues ctx query state = Raise e) /\
  (forall path,
      list_repository_commits (repo_name ctx) (coerce_optional path PyNone)
                              (token ctx) = Raise e ->
      list_commits ctx path = Raise e) /\
  (forall query path,
      list_repository_commits (repo_name ctx) (coerce_optional path PyNone)
                              (token ctx) = Raise e ->
      analyze_commits ctx query path = Raise e) /\
  (forall path,
      get_repository_content (repo_name ctx) path (token ctx) = Raise e ->
      get_file_content ctx path = Raise e /\
      list_directory_contents ctx path = Raise e) /\
  (forall query,
      search_code_in_repository (repo_name ctx) query (token ctx) = Raise e ->
      search_code ctx query = Raise e) /\
  (PyString.count "/" (repo_name ctx) = 1 ->
   list_user_repositories (token ctx) (owner_of (repo_name ctx)) = Raise e ->
   get_repo_details ctx = Raise e).
Proof.
  repeat apply conj.
  - intros state H. unfold list_issues. by rewrite H.
  - intros query state H. unfold analyze_issues. by rewrite H.
  - intros path H. unfold list_commits. by rewrite H.
  - intros query path H. unfold analyze_commits. by rewrite H.
  - intros path H. unfold get_file_content, list_directory_contents.
    by rewrite H.
  - intros query H. unfold search_code. by rewrite H.
  - intros Hone H. unfold get_repo_details.
    destruct (split_one_separator _ Hone) as (owner & name & Hsplit & Howner).
    rewrite Hsplit. cbn. rewrite Howner in H. by rewrite H.
Qed.

Lemma tools_propagate_collaborator_errors_witness :
  list_issues (H := Sample.github) Sample.deps (PyInt 3) =
    Raise (AssertionError "3") /\
  get_file_content (H := Sample.github) Sample.deps (PyStr "missing.txt") =
    Raise (GithubException "404 Not Found") /\
  list_directory_contents (H := Sample.github) Sample.deps (PyStr "missing.txt") =
    Raise (GithubException "404 Not Found") /\
  get_repo_details (H := Sample.github) Sample.deps =
    Raise (GithubException "404 Not Found").
Proof.
  split; [| split; [| split]].
  - apply (proj1 (tools_propagate_collaborator_errors Sample.github
                    SampleSession.search Sample.runtime Sample.deps
                    (AssertionError "3"))).
    reflexivity.
  - apply (proj1 (proj2 (proj2 (proj2 (proj2
             (tools_propagate_collaborator_errors Sample.github
                SampleSession.search Sample.runtime Sample.deps
                (GithubException "404 Not Found")))))) (PyStr "missing.txt")).
    reflexivity.
  - apply (proj1 (proj2 (proj2 (proj2 (proj2
             (tools_propagate_collaborator_errors Sample.github
                SampleSession.search Sample.runtime Sample.deps
                (GithubException "404 Not Found")))))) (PyStr "missing.txt")).
    reflexivity.
  - apply (proj2 (proj2 (proj2 (proj2 (proj2 (proj2
             (tools_propagate_collaborator_errors Sample.github
                SampleSession.search Sample.runtime Sample.deps
                (GithubException "404 Not Found")))))))).
    + reflexivity.
    + reflexivity.
Defined.

(** The code-search tool returns every match of the collaborator, and its
    summary agrees with the list it returns: "No code matches" exactly when
    the list is empty, otherwise the number of matches. *)
Theorem search_code_summary_counts_matches (gs : GithubSearch)
    (ctx : GitHubDependencies) (query : PyVal) (results : list CodeMatch) :
  search_code_in_repository (repo_name ctx) query (token ctx) = Ok results ->
  exists r : CodeSearchResult,
    search_code ctx query = Ok r /\
    matches r = results /\
    (matches r = [] ->
     search_summary r =
     "No code matches found for '" ++ py_format query ++ "' in the repository.") /\
    (matches r <> [] ->
     search_summary r =
     "Found " ++ PyString.of_nat (length (matches r)) ++ " code matches for '" ++
     py_format query ++ "' in the repository.").
Proof.
  intros H. unfold search_code. rewrite H. cbn. eexists. split; [reflexivity |].
  cbn. split; [done |]. unfold search_summary_text.
  destruct results as [|m ms]; cbn; by split.
Qed.

Lemma search_code_summary_counts_matches_witness :
  exists r : CodeSearchResult,
    search_code (H := SampleSession.search) Sample.deps (PyStr "greet") = Ok r /\
    matches r =
      [ {| match_name := "agent.py"; match_path := "src/agent.py";
           match_url := "https://github.com/octocat/hello/src/agent.py";
           match_repository := "octocat/hello";
           match_score := QArith_base.Qmake 1 1 |} ] /\
    (matches r = [] ->
     search_summary r = "No code matches found for 'greet' in the repository.") /\
    (matches r <> [] ->
     search_summary r =
     "Found " ++ PyString.of_nat (length (matches r)) ++
     " code matches for 'greet' in the repository.").
Proof.
  apply (search_code_summary_counts_matches SampleSession.search Sample.deps
           (PyStr "greet")).
  reflexivity.
Defined.

(** The empty query selects everything: the issue filter and the commit
    filter return all that was fetched. *)
Theorem empty_query_selects_everything (gh : GithubUtils) (rt : PyRuntime)
    (ctx : GitHubDependencies) :
  (forall state fetched,
      list_repository_issues (repo_name ctx) (coerce_optional state (PyStr "all"))
                             (token ctx) = Ok fetched ->
      exists r, analyze_issues ctx (PyStr "") state = Ok r /\ issues r = fetched) /\
  (forall path fetched,
      list_repository_commits (repo_name ctx) (coerce_optional path PyNone)
                              (token ctx) = Ok fetched ->
      exists r, analyze_commits ctx (PyStr "") path = Ok r /\ commits r = fetched).
Proof.
  split.
  - intros state fetched H. eexists. split; [by apply analyze_issues_ok |].
    cbn. apply filter_all. intros i _. unfold issue_matches.
    rewrite (str_lower_ascii "" eq_refl). by rewrite contains_empty_needle.
  - intros path fetched H. eexists. split; [by apply analyze_commits_ok |].
    cbn. apply filter_all. intros c _. unfold commit_matches.
    rewrite (str_lower_ascii "" eq_refl). apply contains_empty_needle.
Qed.

Lemma empty_query_selects_everything_witness :
  (exists r, analyze_issues (H := Sample.github) (rt := Sample.runtime)
               Sample.deps (PyStr "") (PyStr "open") = Ok r /\
             issues r = [Sample.fix_bug; Sample.add_feature]) /\
  (exists r, analyze_commits (H := Sample.github) (rt := Sample.runtime)
               Sample.deps (PyStr "") PyNone = Ok r /\
             commits r = [Sample.fix_null_pointer; Sample.add_docs]).
Proof.
  split.
  - apply (proj1 (empty_query_selects_everything Sample.github Sample.runtime
                    Sample.deps)
                 (PyStr "open")).
    reflexivity.
  - apply (proj2 (empty_query_selects_everything Sample.github Sample.runtime
                    Sample.deps)
                 PyNone).
    reflexivity.
Defined.

(** The case of the query does not matter: two queries that [str.lower]
    maps to the same text select the same issues and the same commits.  For
    queries in ASCII these are the queries that are equal up to the case of
    their letters. *)
Theorem query_case_is_irrelevant (gh : GithubUtils) (rt : PyRuntime)
    (ctx : GitHubDependencies) (q1 q2 : string) :
  (str_lower q1 = str_lower q2 ->
   (forall state fetched,
       list_repository_issues (repo_name ctx) (coerce_optional state (PyStr "all"))
                              (token ctx) = Ok fetched ->
       exists r1 r2,
         analyze_issues ctx (PyStr q1) state = Ok r1 /\
         analyze_issues ctx (PyStr q2) state = Ok r2 /\
         issues r1 = issues r2) /\
   (forall path fetched,
       list_repository_commits (repo_name ctx) (coerce_optional path PyNone)
                               (token ctx) = Ok fetched ->
       exists r1 r2,
         analyze_commits ctx (PyStr q1) path = Ok r1 /\
         analyze_commits ctx (PyStr q2) path = Ok r2 /\
         commits r1 = commits r2)) /\
  (PyString.is_ascii q1 = true -> PyString.is_ascii q2 = true ->
   (str_lower q1 = str_lower q2 <-> eq_ignoring_case q1 q2)).
Proof.
  split.
  - intros Hq. split.
    + intros state fetched H. do 2 eexists.
      split; [by apply analyze_issues_ok |]. split; [by apply analyze_issues_ok |].
      cbn. by rewrite Hq.
    + intros path fetched H. do 2 eexists.
      split; [by apply analyze_commits_ok |]. split; [by apply analyze_commits_ok |].
      cbn. by rewrite Hq.
  - intros H1 H2. rewrite (str_lower_ascii q1 H1), (str_lower_ascii q2 H2).
    apply lower_eq_iff.
Qed.

(** The theorem at work on a query with an accented capital, which selects
    the issue and the commit titled in small letters, and on an ASCII
    query. *)
Lemma query_case_is_irrelevant_witness :
  ((exists r1 r2,
      analyze_issues (H := Sample.github_unicode) (rt := Sample.runtime)
        Sample.deps (PyStr Sample.capital_emile) (PyStr "all") = Ok r1 /\
      analyze_issues (H := Sample.github_unicode) (rt := Sample.runtime)
        Sample.deps (PyStr Sample.small_emile) (PyStr "all") = Ok r2 /\
      issues r1 = issues r2) /\
   (exists r1 r2,
      analyze_commits (H := Sample.github_unicode) (rt := Sample.runtime)
        Sample.deps (PyStr Sample.capital_emile) PyNone = Ok r1 /\
      analyze_commits (H := Sample.github_unicode) (rt := Sample.runtime)
        Sample.deps (PyStr Sample.small_emile) PyNone = Ok r2 /\
      commits r1 = commits r2)) /\
  (str_lower (PyRuntime := Sample.runtime) "Bug" =
   str_lower (PyRuntime := Sample.runtime) "bUG" <-> eq_ignoring_case "Bug" "bUG").
Proof.
  split.
  - pose proof (proj1 (query_case_is_irrelevant Sample.github_unicode
                         Sample.runtime Sample.deps
                         Sample.capital_emile Sample.small_emile) eq_refl)
      as [Hissues Hcommits].
    split.
    + apply (Hissues (PyStr "all") [Sample.greek_issue; Sample.zola_issue]).
      reflexivity.
    + apply (Hcommits PyNone [Sample.greek_commit; Sample.zola_commit]).
      reflexivity.
  - apply (proj2 (query_case_is_irrelevant Sample.github Sample.runtime
                    Sample.deps "Bug" "bUG")); reflexivity.
Defined.

Example accented_query_selects :
  analyze_issues (H := Sample.github_unicode) (rt := Sample.runtime) Sample.deps
    (PyStr Sample.capital_emile) (PyStr "all") =
  Ok {| issues := [Sample.zola_issue];
        issues_summary :=
          "Found 1 issues matching '" ++ Sample.capital_emile ++
          "' with state 'all'." |}.
Proof. reflexivity. Qed.

(** A longer query narrows the selection: when the lower-case form of [q1]
    occurs in the lower-case form of [q2], every issue (commit) returned for
    [q2] is returned for [q1], so the longer query never returns more.  For
    queries in ASCII the condition is that [q1] occurs in [q2] up to case. *)
Theorem longer_query_narrows_selection (gh : GithubUtils) (rt : PyRuntime)
    (ctx : GitHubDependencies) (q1 q2 : string) :
  (occurs_lowered q1 q2 ->
   (forall state fetched r1 r2,
       list_repository_issues (repo_name ctx) (coerce_optional state (PyStr "all"))
                              (token ctx) = Ok fetched ->
       analyze_issues ctx (PyStr q1) state = Ok r1 ->
       analyze_issues ctx (PyStr q2) state = Ok r2 ->
       (forall i, In i (issues r2) -> In i (issues r1)) /\
       length (issues r2) <= length (issues r1)) /\
   (forall path fetched r1 r2,
       list_repository_commits (repo_name ctx) (coerce_optional path PyNone)
                               (token ctx) = Ok fetched ->
       analyze_commits ctx (PyStr q1) path = Ok r1 ->
       analyze_commits ctx (PyStr q2) path = Ok r2 ->
       (forall c, In c (commits r2) -> In c (commits r1)) /\
       length (commits r2) <= length (commits r1))) /\
  (PyString.is_ascii q1 = true -> PyString.is_ascii q2 = true ->
   (occurs_lowered q1 q2 <-> ci_substring q1 q2)).
Proof.
  assert (forall {A : Type} (f g : A -> bool) (l : list A),
             (forall x, g x = true -> f x = true) ->
             (forall x, In x (List.filter g l) -> In x (List.filter f l)) /\
             length (List.filter g l) <= length (List.filter f l)) as Hfilter.
  { intros A f g l Himp. split.
    - intros x [Hin Hg]%filter_In. apply filter_In. auto.
    - induction l as [|x l IH]; [done |]. cbn.
      destruct (g x) eqn:Hg.
      + rewrite (Himp x Hg). cbn. lia.
      + destruct (f x); cbn; lia. }
  split.
  - intros Hsub.
    assert (forall text, PyString.contains (str_lower q2) text = true ->
                         PyString.contains (str_lower q1) text = true) as Htrans.
    { intros text (pre & post & ->)%contains_iff.
      destruct Hsub as (pre' & post' & ->). apply contains_iff.
      exists (pre ++ pre'), (post' ++ post). by rewrite !string_app_assoc. }
    split.
    + intros state fetched r1 r2 Hfetch H1 H2.
      rewrite (analyze_issues_ok gh rt ctx q1 state fetched Hfetch) in H1.
      rewrite (analyze_issues_ok gh rt ctx q2 state fetched Hfetch) in H2.
      injection H1 as <-. injection H2 as <-. cbn.
      apply Hfilter. intros i. unfold issue_matches.
      rewrite !orb_true_iff, !existsb_exists.
      intros [Ht | (label & Hin & Hl)]; [left; by apply Htrans | right].
      exists label. split; [done | by apply Htrans].
    + intros path fetched r1 r2 Hfetch H1 H2.
      rewrite (analyze_commits_ok gh rt ctx q1 path fetched Hfetch) in H1.
      rewrite (analyze_commits_ok gh rt ctx q2 path fetched Hfetch) in H2.
      injection H1 as <-. injection H2 as <-. cbn.
      apply Hfilter. intros c. unfold commit_matches. apply Htrans.
  - intros H1 H2. rewrite <- occurs_lowered_iff.
    by apply contains_str_lower_iff.
Qed.

Lemma longer_query_narrows_selection_witness :
  ((forall i,
      In i (issues {| issues := [Sample.fix_bug];
                      issues_summary :=
                        "Found 1 issues matching 'BUG' with state 'all'." |}) ->
      In i (issues {| issues := [Sample.fix_bug; Sample.add_feature];
                      issues_summary :=
                        "Found 2 issues matching 'u' with state 'all'." |})) /\
   length [Sample.fix_bug] <= length [Sample.fix_bug; Sample.add_feature]) /\
  (occurs_lowered (rt := Sample.runtime) "u" "BUG" <-> ci_substring "u" "BUG").
Proof.
  assert (occurs_lowered (rt := Sample.runtime) "u" "BUG") as Hsub.
  { apply occurs_lowered_iff. reflexivity. }
  split.
  - apply (proj1 (proj1 (longer_query_narrows_selection Sample.github
                           Sample.runtime Sample.deps "u" "BUG") Hsub)
                 (PyStr "all") [Sample.fix_bug; Sample.add_feature]);
      reflexivity.
  - apply (proj2 (longer_query_narrows_selection Sample.github Sample.runtime
                    Sample.deps "u" "BUG")); reflexivity.
Defined.

(** Three handlers replace an optional parameter that is neither [None] nor
    a string by its default before they call the collaborator: ["all"] for
    [state] in [analyze_issues], [None] for [path] in [list_commits] and
    [analyze_commits].  [None] and strings are passed on as they are. *)
Theorem optional_parameters_are_coerced (gh : GithubUtils) (rt : PyRuntime)
    (ctx : GitHubDependencies) (query v : PyVal) :
  is_str v = false -> v <> PyNone ->
  analyze_issues ctx query v = analyze_issues ctx query (PyStr "all") /\
  list_commits ctx v = list_commits ctx PyNone /\
  analyze_commits ctx query v = analyze_commits ctx query PyNone /\
  list_commits ctx PyNone =
    list_repository_commits (repo_name ctx) PyNone (token ctx) /\
  (forall s, list_commits ctx (PyStr s) =
             list_repository_commits (repo_name ctx) (PyStr s) (token ctx)).
Proof.
  intros Hs Hn. split; [by apply analyze_issues_defaults_state |].
  split; [by apply list_commits_defaults_path |].
  split; [by apply analyze_commits_defaults_path |].
  split; [| intros s]; unfold list_commits; rewrite reraise_id; cbn;
    by destruct (list_repository_commits _ _ _).
Qed.

Lemma optional_parameters_are_coerced_witness :
  analyze_issues (H := Sample.github) (rt := Sample.runtime) Sample.deps
    (PyStr "bug") (PyBool false) =
    analyze_issues (H := Sample.github) (rt := Sample.runtime) Sample.deps
      (PyStr "bug") (PyStr "all") /\
  list_commits (H := Sample.github) Sample.deps (PyBool false) =
    list_commits (H := Sample.github) Sample.deps PyNone /\
  analyze_commits (H := Sample.github) (rt := Sample.runtime) Sample.deps
    (PyStr "bug") (PyBool false) =
    analyze_commits (H := Sample.github) (rt := Sample.runtime) Sample.deps
      (PyStr "bug") PyNone /\
  list_commits (H := Sample.github) Sample.deps PyNone =
    list_repository_commits (GithubUtils := Sample.github) "octocat/hello" PyNone
                            "ghp_token" /\
  (forall s, list_commits (H := Sample.github) Sample.deps (PyStr s) =
             list_repository_commits (GithubUtils := Sample.github) "octocat/hello"
                                     (PyStr s) "ghp_token").
Proof.
  apply (optional_parameters_are_coerced Sample.github Sample.runtime Sample.deps
           (PyStr "bug") (PyBool false)).
  - reflexivity.
  - discriminate.
Defined.

(** ** The blocking entry point *)

(** The blocking entry point hands the run the history it was given, except
    that an empty history is treated as no history, and returns what the run
    returns: the same result object, or the same exception. *)
Theorem analyze_repository_sync_returns_run {ModelMessage : Type}
    (runner : AgentRunner ModelMessage) (query token repo_name : string) :
  let deps := {| token := token; repo_name := repo_name |} in
  (forall (m : ModelMessage) (ms : list ModelMessage),
      analyze_repository_sync query token repo_name (Some (m :: ms)) =
      run_sync query deps (Some (m :: ms))) /\
  analyze_repository_sync query token repo_name None =
    run_sync query deps None /\
  analyze_repository_sync query token repo_name (Some []) =
    run_sync query deps None.
Proof.
  intros deps. unfold analyze_repository_sync. fold deps.
  rewrite !reraise_id. cbn.
  split; [intros m ms | split]; by destruct (run_sync _ _ _).
Qed.

(** ** More on the conversation store *)




(** A save that fails before it writes leaves every file as it was: when
    the messages cannot be serialised, or the location cannot be opened, the
    call returns normally and the file system is unchanged. *)
Theorem failed_save_changes_nothing {ModelMessage Jsonable : Type}
    (codec : MessageCodec ModelMessage Jsonable)
    (messages : list ModelMessage) (filename : string) (fs : FileSystem) :
  (exists e, to_jsonable_python messages = Raise e) \/ filename ∈ fs_denied fs ->
  save_messages_to_json messages filename fs = (Ok tt, fs).
Proof.
  intros Hfail. unfold_io.
  destruct (to_jsonable_python messages) as [j | e] eqn:Hser; cbn; [| done].
  destruct Hfail as [[e He] | Hden]; [done |].
  by rewrite bool_decide_eq_true_2.
Qed.

(** The write is a plain overwrite: when [json.dump] stops with an exception
    after writing part of the text, the call still returns normally and the
    file holds that part, whatever it held before. *)
Theorem interrupted_save_overwrites {ModelMessage Jsonable : Type}
    (codec : MessageCodec ModelMessage Jsonable)
    (messages : list ModelMessage) (filename : string) (fs : FileSystem)
    (serialized : Jsonable) (part : string) (e : exn) :
  filename ∉ fs_denied fs ->
  to_jsonable_python messages = Ok serialized ->
  json_dump serialized = (part, Some e) ->
  fst (save_messages_to_json messages filename fs) = Ok tt /\
  fs_files (snd (save_messages_to_json messages filename fs)) !! filename
  = Some part.
Proof.
  intros Hopen Hser Hdump. unfold_io. rewrite Hser. cbn.
  rewrite bool_decide_eq_false_2 by done. cbn. rewrite Hdump. cbn.
  split; [done |]. by rewrite !lookup_insert_eq.
Qed.

(** A file that exists but cannot be used gives the empty history: when the
    location cannot be opened, the text does not parse, or the parsed value
    is not a list of messages, [load] returns the empty sequence and leaves
    the files as they are. *)
Theorem load_unusable_file_is_empty {ModelMessage Jsonable : Type}
    (codec : MessageCodec ModelMessage Jsonable)
    (filename : string) (fs : FileSystem) (text : string) :
  fs_files fs !! filename = Some text ->
  filename ∈ fs_denied fs \/
  (exists e, json_load text = Raise e) \/
  (exists j e, json_load text = Ok j /\ validate_python j = Raise e) ->
  load_messages_from_json filename fs = (Ok [], fs).
Proof.
  intros Hfile Hbad. unfold_io. rewrite Hfile.
  rewrite bool_decide_eq_true_2 by eauto. cbn.
  destruct (bool_decide (filename ∈ fs_denied fs)) eqn:Hden; cbn; [done |].
  apply bool_decide_eq_false in Hden. rewrite Hfile.
  destruct Hbad as [Hd | [[e He] | (j & e & Hj & He)]]; [done | |].
  - by rewrite He.
  - rewrite Hj. cbn. by rewrite He.
Qed.

Lemma failed_save_changes_nothing_witness :
  save_messages_to_json (MessageCodec0 := SampleSession.fragile_codec)
    ["user: hi"; ""] SampleSession.history_file SampleSession.fs_with_history
  = (Ok tt, SampleSession.fs_with_history) /\
  save_messages_to_json (MessageCodec0 := SampleSession.fragile_codec)
    ["user: hi"] SampleSession.history_file SampleSession.fs_refused
  = (Ok tt, SampleSession.fs_refused).
Proof.
  split.
  - apply (failed_save_changes_nothing SampleSession.fragile_codec
             ["user: hi"; ""] SampleSession.history_file
             SampleSession.fs_with_history).
    left. exists (ValueError "cannot serialise"). reflexivity.
  - apply (failed_save_changes_nothing SampleSession.fragile_codec
             ["user: hi"] SampleSession.history_file SampleSession.fs_refused).
    right. cbn. set_solver.
Defined.

Lemma interrupted_save_overwrites_witness :
  fst (save_messages_to_json (MessageCodec0 := SampleSession.fragile_codec)
         ["user: look"; "<binary>"] SampleSession.history_file
         SampleSession.fs_with_history) = Ok tt /\
  fs_files
    (snd (save_messages_to_json (MessageCodec0 := SampleSession.fragile_codec)
            ["user: look"; "<binary>"] SampleSession.history_file
            SampleSession.fs_with_history)) !! SampleSession.history_file
  = Some "user: look".
Proof.
  apply (interrupted_save_overwrites SampleSession.fragile_codec
           ["user: look"; "<binary>"] SampleSession.history_file
           SampleSession.fs_with_history ["user: look"; "<binary>"]
           "user: look" (ValueError "not JSON serializable")).
  - apply not_elem_of_empty.
  - reflexivity.
  - reflexivity.
Defined.

Lemma load_unusable_file_is_empty_witness :
  load_messages_from_json (MessageCodec0 := SampleSession.fragile_codec)
    SampleSession.history_file SampleSession.fs_refused
  = (Ok [], SampleSession.fs_refused) /\
  load_messages_from_json (MessageCodec0 := SampleSession.fragile_codec)
    SampleSession.history_file SampleSession.fs_empty_file
  = (Ok [], SampleSession.fs_empty_file) /\
  load_messages_from_json (MessageCodec0 := SampleSession.fragile_codec)
    SampleSession.history_file SampleSession.fs_garbage
  = (Ok [], SampleSession.fs_garbage).
Proof.
  split; [| split].
  - apply (load_unusable_file_is_empty SampleSession.fragile_codec
             SampleSession.history_file SampleSession.fs_refused "user: hello").
    + apply lookup_singleton_eq.
    + left. cbn. set_solver.
  - apply (load_unusable_file_is_empty SampleSession.fragile_codec
             SampleSession.history_file SampleSession.fs_empty_file "").
    + apply lookup_singleton_eq.
    + right; left. exists (JSONDecodeError "Expecting value"). reflexivity.
  - apply (load_unusable_file_is_empty SampleSession.fragile_codec
             SampleSession.history_file SampleSession.fs_garbage "garbage").
    + apply lookup_singleton_eq.
    + right; right. exists ["garbage"], (ValidationError "not a message").
      split; reflexivity.
Defined.

(** ** Key derivation, continued *)



(** ** The chat front end *)

Section SourcesFacts.

Lemma format_loop_unfold (i : nat) (sources : list string) (formatted : string) :
  fold_left
    (fun formatted '(i, source) =>
       formatted ++ (PyString.of_nat i ++ ". " ++ source ++ nl))
    (enumerate i sources) formatted
  = formatted ++ source_lines i sources.
Proof.
  revert i formatted. induction sources as [|s rest IH]; intros i formatted.
  - cbn. by rewrite string_app_empty_r.
  - change (enumerate i (s :: rest)) with ((i, s) :: enumerate (S i) rest).
    cbn [fold_left source_lines]. rewrite IH. by rewrite string_app_assoc.
Qed.

Lemma format_sources_unfold (s : string) (rest : list string) :
  format_sources (s :: rest) =
  (nl ++ nl ++ "**Sources:**" ++ nl) ++ source_lines 1 (s :: rest).
Proof. unfold format_sources. cbn [length Nat.eqb]. apply format_loop_unfold. Qed.

Lemma source_lines_contains (i k : nat) (sources : list string) (s : string) :
  nth_error sources k = Some s ->
  PyString.contains (PyString.of_nat (i + k) ++ ". " ++ s ++ nl)
                    (source_lines i sources) = true.
Proof.
  revert i k. induction sources as [|x rest IH]; intros i k Hk.
  - by destruct k.
  - destruct k as [|k]; cbn in Hk.
    + injection Hk as ->. rewrite Nat.add_0_r. cbn [source_lines].
      apply contains_at_head.
    + cbn [source_lines]. apply contains_app_skip.
      replace (i + S k) with (S i + k) by lia. by apply IH.
Qed.

End SourcesFacts.

(** The formatted sources are empty exactly for the empty list; otherwise
    they start with the heading and contain, for every source, the line
    with its number counted from 1. *)
Theorem format_sources_lists_every_source (sources : list string) :
  (format_sources sources = "" <-> sources = []) /\
  (sources <> [] ->
   String.prefix (nl ++ nl ++ "**Sources:**" ++ nl) (format_sources sources) = true) /\
  (forall k s,
      nth_error sources k = Some s ->
      PyString.contains (PyString.of_nat (S k) ++ ". " ++ s ++ nl)
                        (format_sources sources) = true).
Proof.
  destruct sources as [|x rest].
  - split; [done |]. split; [done |]. intros k s Hk. by destruct k.
  - rewrite format_sources_unfold. split; [| split].
    + split; [| done]. intros H. apply (f_equal String.length) in H.
      rewrite string_length_app in H.
      change (String.length (nl ++ nl ++ "**Sources:**" ++ nl)) with 15 in H.
      change (String.length "") with 0 in H. lia.
    + intros _. apply prefix_iff. by eexists.
    + intros k s Hk. apply contains_app_skip.
      by apply (source_lines_contains 1 k).
Qed.

Lemma format_sources_lists_every_source_witness :
  String.prefix (nl ++ nl ++ "**Sources:**" ++ nl)
                (format_sources ["README.md"; "src/agent.py"]) = true /\
  PyString.contains ("2. src/agent.py" ++ nl)
                    (format_sources ["README.md"; "src/agent.py"]) = true.
Proof.
  split.
  - apply (proj1 (proj2 (format_sources_lists_every_source
                           ["README.md"; "src/agent.py"]))).
    discriminate.
  - apply (proj2 (proj2 (format_sources_lists_every_source
                           ["README.md"; "src/agent.py"])) 1 "src/agent.py").
    reflexivity.
Defined.

Section FrontEndFacts.
Context {ModelMessage Jsonable : Type}
        (codec : MessageCodec ModelMessage Jsonable)
        (runner : AgentRunner ModelMessage)
        (fmt : FloatFormat).

Lemma selected_some (r : option string) (repo : string) :
  selected r = Some repo <-> r = Some repo /\ repo <> "".
Proof.
  unfold selected. destruct r as [name |]; [| by split; [| intros []]].
  destruct (String.eqb_spec name "") as [-> | Hne]; split.
  - done.
  - by intros [[= ->] ?].
  - by intros [= ->].
  - by intros [[= ->] _].
Qed.

Lemma load_pydantic_message_history_spec (repo : string)
    (st : SessionState ModelMessage) (fs : FileSystem) :
  repo <> "" ->
  exists file loaded,
    get_history_filename repo = Some file /\
    load_messages_from_json file fs = (Ok loaded, fs) /\
    load_pydantic_message_history (Some repo) st fs =
    (match pydantic_messages st !! repo with
     | Some _ => st
     | None => set_pydantic_messages (<[repo := loaded]> (pydantic_messages st)) st
     end, fs).
Proof.
  intros Hrepo. unfold load_pydantic_message_history.
  rewrite (proj2 (selected_some (Some repo) repo)) by done.
  rewrite (get_history_filename_form repo Hrepo).
  destruct (load_never_raises codec
              ("chat_history/" ++ PyString.replace "/" "_" repo ++ "_history.json")
              fs) as [loaded Hload].
  eexists _, loaded. split; [reflexivity |]. split; [exact Hload |].
  rewrite Hload. destruct (pydantic_messages st !! repo) as [h |] eqn:Hm.
  - by rewrite bool_decide_eq_true_2 by eauto.
  - rewrite bool_decide_eq_false_2; [done |]. by intros [h Hh].
Qed.

(** Changing the repository in the select box empties the chat shown and
    makes the new choice the selected repository.  The callback runs before
    the choice is stored, so the history it brings into memory is that of
    the repository selected until then: one already in memory is kept as it
    is; otherwise the messages of the history file of that repository are
    loaded, the empty sequence when there is no usable file.  The messages
    kept for every other repository, the new choice among them, and the
    files are untouched.  When the box is drawn without a change of choice,
    nothing is loaded. *)
Theorem select_repository_loads_repository_left (previous choice : string)
    (st : SessionState ModelMessage) (fs : FileSystem) :
  (selected_repository st = Some previous -> previous <> "" ->
   forall st' fs',
     select_repository true choice st fs = (st', fs') ->
     fs' = fs /\
     selected_repository st' = Some choice /\
     chat_history st' = [] /\ conversation_started st' = false /\
     (forall other, other <> previous ->
        pydantic_messages st' !! other = pydantic_messages st !! other) /\
     (forall h, pydantic_messages st !! previous = Some h ->
        pydantic_messages st' !! previous = Some h) /\
     (pydantic_messages st !! previous = None ->
      exists file loaded,
        get_history_filename previous = Some file /\
        load_messages_from_json file fs = (Ok loaded, fs) /\
        pydantic_messages st' !! previous = Some loaded)) /\
  (snd (select_repository false choice st fs) = fs /\
   selected_repository (fst (select_repository false choice st fs)) = Some choice /\
   chat_history (fst (select_repository false choice st fs)) = chat_history st /\
   pydantic_messages (fst (select_repository false choice st fs)) =
   pydantic_messages st).
Proof.
  split; [| done].
  intros Hsel Hrepo st' fs' Hrun.
  unfold select_repository, on_repository_select in Hrun. cbn in Hrun.
  rewrite Hsel in Hrun.
  destruct (load_pydantic_message_history_spec previous (set_chat [] false st)
              fs Hrepo)
    as (file & loaded & Hfile & Hload & Hspec).
  rewrite Hspec in Hrun. cbn in Hrun. injection Hrun as <- <-.
  split; [done |]. split; [done |].
  destruct (pydantic_messages st !! previous) as [h |] eqn:Hm; cbn.
  - split; [done |]. split; [done |]. split; [done |].
    split; [intros h' [= <-]; exact Hm | done].
  - split; [done |]. split; [done |].
    split; [intros other Hne; by rewrite lookup_insert_ne |].
    split; [done |].
    intros _. exists file, loaded. by rewrite lookup_insert_eq.
Qed.

End FrontEndFacts.

(** The theorem at work: the session has "octocat/hello" selected and its
    history on file; the user picks "octocat/other". *)
Lemma select_repository_loads_repository_left_witness :
  let st' :=
    fst (select_repository (codec := SampleSession.fragile_codec) true
           "octocat/other" SampleSession.fresh SampleSession.fs_with_history) in
  selected_repository st' = Some "octocat/other" /\
  pydantic_messages st' !! "octocat/other" = None /\
  exists file loaded,
    get_history_filename "octocat/hello" = Some file /\
    load_messages_from_json (MessageCodec0 := SampleSession.fragile_codec)
      file SampleSession.fs_with_history
    = (Ok loaded, SampleSession.fs_with_history) /\
    pydantic_messages st' !! "octocat/hello" = Some loaded.
Proof.
  intros st'.
  destruct (proj1 (select_repository_loads_repository_left
                     SampleSession.fragile_codec
                     "octocat/hello" "octocat/other" SampleSession.fresh
                     SampleSession.fs_with_history)
                  eq_refl ltac:(discriminate) st' SampleSession.fs_with_history
                  eq_refl)
    as (_ & Hsel & _ & _ & Hother & _ & Hload).
  split; [exact Hsel |].
  split; [rewrite (Hother "octocat/other" ltac:(discriminate)); reflexivity |].
  apply Hload. reflexivity.
Defined.

Section ProcessQueryFacts.
Context {ModelMessage Jsonable : Type}
        (codec : MessageCodec ModelMessage Jsonable)
        (runner : AgentRunner ModelMessage)
        (fmt : FloatFormat).

Lemma answer_query_history (repo query : string) (st : SessionState ModelMessage)
    (fs : FileSystem) :
  (if Nat.eqb (length (default [] (pydantic_messages st !! repo))) 0 then None
   else Some (default [] (pydantic_messages st !! repo)))
  = history_for repo st.
Proof.
  unfold history_for. by destruct (pydantic_messages st !! repo) as [[|m ms] |].
Qed.

Lemma answer_query_failure (repo query : string) (st : SessionState ModelMessage)
    (fs : FileSystem) (e : exn) :
  analyze_repository_sync query (github_token st) repo (history_for repo st)
  = Raise e ->
  answer_query repo query st fs = (error_response_text e, st, fs).
Proof.
  intros He. unfold answer_query. cbn zeta.
  rewrite (answer_query_history repo query st fs). by rewrite He.
Qed.

Lemma answer_query_success (repo query : string) (st : SessionState ModelMessage)
    (fs : FileSystem) (r : RunResult ModelMessage) :
  repo <> "" ->
  analyze_repository_sync query (github_token st) repo (history_for repo st)
  = Ok r ->
  exists file,
    get_history_filename repo = Some file /\
    answer_query repo query st fs =
    (full_response_text (data r),
     set_pydantic_messages (<[repo := all_messages r]> (pydantic_messages st))
       (match usage r with
        | Some u => set_token_usage (update_token_usage u (token_usage st)) st
        | None => st
        end),
     snd (save_messages_to_json (all_messages r) file fs)).
Proof.
  intros Hrepo Hr. unfold answer_query. cbn zeta.
  rewrite (answer_query_history repo query st fs). rewrite Hr.
  rewrite (get_history_filename_form repo Hrepo). eexists. split; [reflexivity |].
  cbn. rewrite lookup_insert_eq. cbn. by destruct (usage r).
Qed.

End ProcessQueryFacts.

(** Whatever happens to a query about a selected repository, the chat gains
    exactly two entries, the question and then a reply, and the conversation
    is marked as started; without a selected repository nothing changes. *)
Theorem process_query_records_exchange {ModelMessage Jsonable : Type}
    (codec : MessageCodec ModelMessage Jsonable)
    (runner : AgentRunner ModelMessage) (fmt : FloatFormat)
    (now_user now_assistant query : string)
    (st : SessionState ModelMessage) (fs : FileSystem) :
  (selected (selected_repository st) = None ->
   process_query now_user now_assistant query st fs = (st, fs)) /\
  (forall repo, selected (selected_repository st) = Some repo ->
     exists reply,
       let st' := fst (process_query now_user now_assistant query st fs) in
       chat_history st' =
         app (chat_history st)
             [ {| chat_role := "user"; chat_content := query;
                  chat_timestamp := now_user |};
               {| chat_role := "assistant"; chat_content := reply;
                  chat_timestamp := now_assistant |} ] /\
       conversation_started st' = true /\
       selected_repository st' = selected_repository st /\
       github_token st' = github_token st).
Proof.
  split; unfold process_query.
  - by intros ->.
  - intros repo ->. cbn zeta.
    set (asked := set_chat _ true (add_message_with_timestamp _ _ _ st)).
    assert (chat_history (snd (fst (answer_query repo query asked fs))) =
              chat_history asked /\
            conversation_started (snd (fst (answer_query repo query asked fs))) =
              true /\
            selected_repository (snd (fst (answer_query repo query asked fs))) =
              selected_repository st /\
            github_token (snd (fst (answer_query repo query asked fs))) =
              github_token st) as Hkeep.
    { unfold answer_query. cbn zeta.
      destruct (analyze_repository_sync _ _ _ _) as [r | e]; [| done].
      destruct (usage r); by destruct (get_history_filename repo). }
    destruct (answer_query repo query asked fs) as [[reply st1] fs1].
    cbn in Hkeep. destruct Hkeep as (Hchat & Hstarted & Hsel & Htoken).
    exists reply. cbn. rewrite Hchat, Hstarted, Hsel, Htoken. cbn.
    by rewrite <- app_assoc.
Qed.

(** A failed query leaves the stored conversation alone: when the run
    raises, the messages kept for every repository,
    the token counters and the files are unchanged, and the reply shown is
    the error text with the message of the exception. *)
Theorem process_query_failure_keeps_history {ModelMessage Jsonable : Type}
    (codec : MessageCodec ModelMessage Jsonable)
    (runner : AgentRunner ModelMessage) (fmt : FloatFormat)
    (now_user now_assistant query repo : string)
    (st : SessionState ModelMessage) (fs : FileSystem) (e : exn) :
  selected (selected_repository st) = Some repo ->
  analyze_repository_sync query (github_token st) repo (history_for repo st)
  = Raise e ->
  let st' := fst (process_query now_user now_assistant query st fs) in
  snd (process_query now_user now_assistant query st fs) = fs /\
  pydantic_messages st' = pydantic_messages st /\
  token_usage st' = token_usage st /\
  chat_history st' =
    app (chat_history st)
        [ {| chat_role := "user"; chat_content := query;
             chat_timestamp := now_user |};
          {| chat_role := "assistant";
             chat_content :=
               "I encountered an error while processing your query: " ++ exn_str e;
             chat_timestamp := now_assistant |} ].
Proof.
  intros Hsel He st'. subst st'. unfold process_query. rewrite Hsel. cbn zeta.
  rewrite (answer_query_failure codec runner fmt repo query _ fs e) by exact He.
  cbn. by rewrite <- app_assoc.
Qed.

Lemma process_query_records_exchange_witness :
  process_query (codec := Sample.line_codec) (runner := SampleSession.runner)
    (fmt := SampleSession.float_format) "10:00:00" "10:00:05" "What is it?"
    SampleSession.nothing_selected Sample.empty_fs
  = (SampleSession.nothing_selected, Sample.empty_fs) /\
  exists reply,
    let st' :=
      fst (process_query (codec := Sample.line_codec)
             (runner := SampleSession.runner) (fmt := SampleSession.float_format)
             "10:00:00" "10:00:05" "What is it?"
             SampleSession.fresh Sample.empty_fs) in
    chat_history st' =
      app (chat_history SampleSession.fresh)
          [ {| chat_role := "user"; chat_content := "What is it?";
               chat_timestamp := "10:00:00" |};
            {| chat_role := "assistant"; chat_content := reply;
               chat_timestamp := "10:00:05" |} ] /\
    conversation_started st' = true /\
    selected_repository st' = selected_repository SampleSession.fresh /\
    github_token st' = github_token SampleSession.fresh.
Proof.
  split.
  - apply (proj1 (process_query_records_exchange Sample.line_codec
                    SampleSession.runner SampleSession.float_format
                    "10:00:00" "10:00:05" "What is it?"
                    SampleSession.nothing_selected Sample.empty_fs)).
    reflexivity.
  - apply (proj2 (process_query_records_exchange Sample.line_codec
                    SampleSession.runner SampleSession.float_format
                    "10:00:00" "10:00:05" "What is it?"
                    SampleSession.fresh Sample.empty_fs) "octocat/hello").
    reflexivity.
Defined.

Lemma process_query_failure_keeps_history_witness :
  let run :=
    process_query (codec := Sample.line_codec)
      (runner := SampleSession.failing_runner) (fmt := SampleSession.float_format)
      "10:00:00" "10:00:05" "What is it?"
      SampleSession.fresh SampleSession.fs_with_history in
  snd run = SampleSession.fs_with_history /\
  pydantic_messages (fst run) = pydantic_messages SampleSession.fresh /\
  token_usage (fst run) = token_usage SampleSession.fresh /\
  chat_history (fst run) =
    app (chat_history SampleSession.fresh)
        [ {| chat_role := "user"; chat_content := "What is it?";
             chat_timestamp := "10:00:00" |};
          {| chat_role := "assistant";
             chat_content :=
               "I encountered an error while processing your query: " ++
               exn_str (ModelError "model request failed");
             chat_timestamp := "10:00:05" |} ].
Proof.
  apply (process_query_failure_keeps_history Sample.line_codec
           SampleSession.failing_runner SampleSession.float_format
           "10:00:00" "10:00:05" "What is it?" "octocat/hello"
           SampleSession.fresh SampleSession.fs_with_history
           (ModelError "model request failed")).
  - reflexivity.
  - reflexivity.
Defined.

(** A successful query stores the conversation and persists it: the messages
    of the run replace those kept for the repository (the run was given the
    ones kept before), the reply shown is the answer followed by its sources
    and confidence, and the token counters take the usage of the run.  When
    the history file can be written the messages of the run are saved to
    it, so that the file then holds their text; when moreover the
    serialisers give the messages back from that text, loading the file
    returns exactly these messages. *)
Theorem process_query_persists_conversation {ModelMessage Jsonable : Type}
    (codec : MessageCodec ModelMessage Jsonable)
    (runner : AgentRunner ModelMessage) (fmt : FloatFormat)
    (now_user now_assistant query repo : string)
    (st : SessionState ModelMessage) (fs : FileSystem)
    (r : RunResult ModelMessage) :
  selected (selected_repository st) = Some repo ->
  analyze_repository_sync query (github_token st) repo (history_for repo st)
  = Ok r ->
  let st' := fst (process_query now_user now_assistant query st fs) in
  let fs' := snd (process_query now_user now_assistant query st fs) in
  pydantic_messages st' = <[repo := all_messages r]> (pydantic_messages st) /\
  chat_history st' =
    app (chat_history st)
        [ {| chat_role := "user"; chat_content := query;
             chat_timestamp := now_user |};
          {| chat_role := "assistant";
             chat_content := full_response_text (data r);
             chat_timestamp := now_assistant |} ] /\
  token_usage st' =
    match usage r with
    | Some u => update_token_usage u (token_usage st)
    | None => token_usage st
    end /\
  (exists file,
      get_history_filename repo = Some file /\
      fs' = snd (save_messages_to_json (all_messages r) file fs) /\
      forall serialized text,
        file ∉ fs_denied fs ->
        to_jsonable_python (all_messages r) = Ok serialized ->
        json_dump serialized = (text, None) ->
        fs_files fs' !! file = Some text /\
        forall parsed,
          json_load text = Ok parsed ->
          validate_python parsed = Ok (all_messages r) ->
          load_messages_from_json file fs' = (Ok (all_messages r), fs')).
Proof.
  intros Hsel Hr st' fs'. subst st' fs'.
  apply selected_some in Hsel as Hrepo. destruct Hrepo as [_ Hrepo].
  unfold process_query. rewrite Hsel. cbn zeta.
  destruct (answer_query_success codec runner fmt repo query
              (set_chat
                 (chat_history (add_message_with_timestamp now_user "user" query st))
                 true (add_message_with_timestamp now_user "user" query st))
              fs r Hrepo Hr) as (file & Hfile & Hanswer).
  rewrite Hanswer. cbn.
  split; [by destruct (usage r) |].
  split; [destruct (usage r); cbn; by rewrite <- app_assoc |].
  split; [by destruct (usage r) |].
  exists file. split; [exact Hfile |]. split; [reflexivity |].
  intros serialized text Hopen Hser Hdump. split.
  - rewrite (save_writes_text codec _ _ _ _ _ Hopen Hser Hdump). cbn.
    apply lookup_insert_eq.
  - intros parsed Hload Hval.
    by apply (load_after_save_general codec _ _ _ _ serialized parsed text).
Qed.

Lemma process_query_persists_conversation_witness :
  let msgs := ["user: What is it?"; "assistant: It prints a greeting."] in
  let run :=
    process_query (codec := Sample.line_codec) (runner := SampleSession.runner)
      (fmt := SampleSession.float_format) "10:00:00" "10:00:05" "What is it?"
      SampleSession.fresh Sample.empty_fs in
  pydantic_messages (fst run) = <["octocat/hello" := msgs]> ∅ /\
  fs_files (snd run) !! SampleSession.history_file = Some (Sample.join_lines msgs) /\
  load_messages_from_json (MessageCodec0 := Sample.line_codec)
    SampleSession.history_file (snd run) = (Ok msgs, snd run).
Proof.
  intros msgs run.
  destruct (process_query_persists_conversation Sample.line_codec
              SampleSession.runner SampleSession.float_format
              "10:00:00" "10:00:05" "What is it?" "octocat/hello"
              SampleSession.fresh Sample.empty_fs
              {| data := {| answer := "It prints a greeting.";
                            sources := ["README.md"; "src/agent.py"];
                            confidence := QArith_base.Qmake 9 10 |};
                 all_messages := msgs;
                 usage := Some {| usage_request_tokens := Some 120%Z;
                                  usage_response_tokens := Some 30%Z;
                                  usage_total_tokens := None |} |}
              eq_refl eq_refl) as (Hmsgs & _ & _ & file & Hfile & _ & Hsaved).
  injection Hfile as <-.
  destruct (Hsaved msgs (Sample.join_lines msgs) (not_elem_of_empty _)
                   eq_refl eq_refl) as [Htext Hload].
  split; [exact Hmsgs |]. split; [exact Htext |].
  apply (Hload msgs); reflexivity.
Defined.



(** No file, no history: the fact behind the empty start of a session. *)
Lemma load_missing_file_is_empty_general {ModelMessage Jsonable : Type}
    (codec : MessageCodec ModelMessage Jsonable)
    (filename : string) (fs : FileSystem) :
  fs_files fs !! filename = None ->
  load_messages_from_json filename fs = (Ok [], fs).
Proof.
  intros Hmissing. unfold_io. rewrite Hmissing.
  rewrite bool_decide_eq_false_2; [done |]. by intros [text Ht].
Qed.

(** The "Clear Chat" button empties the chat shown.  For a repository whose
    conversation is in memory it also empties that conversation and removes
    the history file when the removal is allowed, after which a load from
    that location returns nothing; a refused removal leaves the files as
    they are.  For a repository with no conversation in memory the files are
    not touched.  Without a click, or with an empty chat, nothing changes. *)
Theorem clear_chat_discards_conversation {ModelMessage Jsonable : Type}
    (codec : MessageCodec ModelMessage Jsonable)
    (st : SessionState ModelMessage) (fs : FileSystem) :
  (forall pressed, pressed = false \/ chat_history st = [] ->
     clear_chat pressed st fs = (st, fs)) /\
  (chat_history st <> [] ->
   let st' := fst (clear_chat true st fs) in
   let fs' := snd (clear_chat true st fs) in
   chat_history st' = [] /\ conversation_started st' = false /\
   (forall repo, repo <> "" -> selected_repository st = Some repo ->
      (pydantic_messages st !! repo = None ->
       pydantic_messages st' = pydantic_messages st /\ fs' = fs) /\
      (is_Some (pydantic_messages st !! repo) ->
       pydantic_messages st' = <[repo := []]> (pydantic_messages st) /\
       exists file,
         get_history_filename repo = Some file /\
         (file ∈ fs_denied fs -> fs' = fs) /\
         (file ∉ fs_denied fs ->
          fs_files fs' = delete file (fs_files fs) /\
          load_messages_from_json file fs' = (Ok [], fs'))))).
Proof.
  split.
  - intros pressed [-> | Hempty]; unfold clear_chat.
    + by rewrite andb_false_r.
    + by rewrite Hempty.
  - intros Hchat st' fs'. subst st' fs'. unfold clear_chat.
    destruct (chat_history st) as [|m ms] eqn:Hm; [done |]. cbn [length Nat.eqb negb andb].
    cbn. destruct (selected_repository st) as [sel |]; cbn.
    + destruct (bool_decide (is_Some (pydantic_messages st !! sel))) eqn:Hin.
      * apply bool_decide_eq_true in Hin.
        destruct (get_history_filename sel) as [file |] eqn:Hfile; cbn.
        -- destruct (bool_decide (is_Some (fs_files fs !! file))) eqn:Hex; cbn.
           ++ apply bool_decide_eq_true in Hex as [text Hex].
              split; [done |]. split; [done |]. intros repo Hrepo [= ->].
              split; [intros Hnone; rewrite Hnone in Hin; by destruct Hin |].
              intros _. split; [done |]. exists file. split; [done |].
              unfold io_try, os_remove. split.
              ** intros Hden. by rewrite bool_decide_eq_true_2.
              ** intros Hopen. rewrite bool_decide_eq_false_2 by done.
                 rewrite Hex. cbn. split; [done |].
                 apply (load_missing_file_is_empty_general codec). cbn.
                 apply lookup_delete_eq.
           ++ apply bool_decide_eq_false in Hex.
              split; [done |]. split; [done |]. intros repo Hrepo [= ->].
              split; [intros Hnone; rewrite Hnone in Hin; by destruct Hin |].
              intros _. split; [done |]. exists file. split; [done |].
              assert (fs_files fs !! file = None) as Hnone.
              { destruct (fs_files fs !! file) eqn:E; [| done].
                destruct Hex. eauto. }
              split; [done |]. intros _. split.
              ** symmetry. by apply delete_id.
              ** by apply (load_missing_file_is_empty_general codec).
        -- split; [done |]. split; [done |]. intros repo Hrepo [= ->].
           rewrite (get_history_filename_form repo Hrepo) in Hfile. done.
      * apply bool_decide_eq_false in Hin.
        split; [done |]. split; [done |]. intros repo Hrepo [= ->].
        split; [done |]. intros Hsome. by destruct Hin.
    + split; [done |]. split; [done |]. intros repo _ [=].
Qed.

Lemma clear_chat_discards_conversation_witness :
  clear_chat false
    SampleSession.chatting SampleSession.fs_with_history
  = (SampleSession.chatting, SampleSession.fs_with_history) /\
  let st' := fst (clear_chat true
                    SampleSession.chatting SampleSession.fs_with_history) in
  let fs' := snd (clear_chat true
                    SampleSession.chatting SampleSession.fs_with_history) in
  chat_history st' = [] /\
  pydantic_messages st' =
    <["octocat/hello" := []]> (pydantic_messages SampleSession.chatting) /\
  exists file,
    get_history_filename "octocat/hello" = Some file /\
    fs_files fs' = delete file (fs_files SampleSession.fs_with_history) /\
    load_messages_from_json (MessageCodec0 := Sample.line_codec) file fs'
    = (Ok [], fs').
Proof.
  split.
  - apply (proj1 (clear_chat_discards_conversation Sample.line_codec
                    SampleSession.chatting SampleSession.fs_with_history) false).
    left. reflexivity.
  - intros st' fs'.
    destruct (proj2 (clear_chat_discards_conversation Sample.line_codec
                       SampleSession.chatting SampleSession.fs_with_history))
      as (Hchat & _ & Hrepo).
    { discriminate. }
    split; [exact Hchat |].
    destruct (Hrepo "octocat/hello") as [_ Hmem].
    { discriminate. }
    { reflexivity. }
    destruct Hmem as (Hmsgs & file & Hfile & _ & Hremoved).
    { exists ["user: hello"]. reflexivity. }
    split; [exact Hmsgs |]. exists file. split; [exact Hfile |].
    apply Hremoved. apply not_elem_of_empty.
Defined.

(** ** The data-access layer *)

Create HintDb net discriminated.
#[local] Hint Unfold github_utils.list_user_repositories
  github_utils.search_code_in_repository github_utils.list_repository_issues
  github_utils.list_repository_commits github_utils.get_repository_content
  github_utils.get_github_client try_finally github_open github_close net_lift
  mbind mret net_bind net_ret : net.

(** Expose the state passing of a call of the data-access layer. *)
Ltac unfold_net := autounfold with net; cbn.

Section DataAccessFacts.
Context (api : PyGithub) (env : Environ).

Lemma with_client_closes {A : Type} (token : option string)
    (fetch : string -> result A) :
  closes_its_client
    (g ← github_utils.get_github_client token;
     try_finally (net_lift (fetch g)) github_close).
Proof.
  intros n. unfold_net.
  destruct token as [t |]; [| destruct env_github_token as [t |]]; cbn;
    try (by left); destruct (String.eqb t ""); cbn; try (by left);
    right; by destruct (fetch t).
Qed.

Lemma with_client_result {A : Type} (token : option string)
    (fetch : string -> result A) (n : Network) :
  fst ((g ← github_utils.get_github_client token;
        try_finally (net_lift (fetch g)) github_close) n) =
  match resolved_token token with
  | Some t => if String.eqb t "" then Raise (AssertionError "") else fetch t
  | None =>
      Raise (ValueError
        "GitHub token not provided and GITHUB_PERSONAL_ACCESS_TOKEN environment variable not set")
  end.
Proof.
  unfold_net. unfold resolved_token.
  destruct token as [t |]; [| destruct env_github_token as [t |]]; cbn;
    try done; destruct (String.eqb t ""); cbn; try done; by destruct (fetch t).
Qed.

Lemma with_client_network {A : Type} (token : option string)
    (fetch : string -> result A) (n : Network) :
  snd ((g ← github_utils.get_github_client token;
        try_finally (net_lift (fetch g)) github_close) n) =
  match resolved_token token with
  | Some t => if String.eqb t "" then n else after_one_client n
  | None => n
  end.
Proof.
  unfold_net. unfold resolved_token.
  destruct token as [t |]; [| destruct env_github_token as [t |]]; cbn;
    try done; destruct (String.eqb t ""); cbn; try done; by destruct (fetch t).
Qed.

(** What the content function answers to a handler. *)
Lemma collaborator_content (repo_name : string) (path : PyVal) (token : string) :
  get_repository_content (GithubUtils := github_utils_collaborator api env)
    repo_name path token =
  if String.eqb token "" then Raise (AssertionError "")
  else
    (contents ← api_contents token repo_name path;
     match contents with
     | RawSingle c => d ← github_utils.file_dict c; Ok (ContentDict d)
     | RawListing l => Ok (ContentList (List.map github_utils.entry_dict l))
     end).
Proof.
  unfold get_repository_content, github_utils_collaborator, run_net,
    github_utils.get_repository_content.
  by rewrite with_client_result.
Qed.

End DataAccessFacts.

(** No function of the data-access layer leaks a client.  With a token that
    is not empty each function opens one client and closes it, whether the
    fetch returns or raises; with the empty token, or with no token at all,
    it raises before any client exists and leaves the network as it was. *)
Theorem github_utils_close_their_client (api : PyGithub) (env : Environ)
    (token username : option string) (repo_name : string) (v : PyVal)
    (n : Network) :
  (closes_its_client (github_utils.list_user_repositories token username) /\
   closes_its_client (github_utils.search_code_in_repository repo_name v token) /\
   closes_its_client (github_utils.list_repository_issues repo_name v token) /\
   closes_its_client (github_utils.list_repository_commits repo_name v token) /\
   closes_its_client (github_utils.get_repository_content repo_name v token)) /\
  (forall t, resolved_token token = Some t -> t <> "" ->
     snd (github_utils.list_user_repositories token username n) =
       after_one_client n /\
     snd (github_utils.search_code_in_repository repo_name v token n) =
       after_one_client n /\
     snd (github_utils.list_repository_issues repo_name v token n) =
       after_one_client n /\
     snd (github_utils.list_repository_commits repo_name v token n) =
       after_one_client n /\
     snd (github_utils.get_repository_content repo_name v token n) =
       after_one_client n) /\
  (resolved_token token = None \/ resolved_token token = Some "" ->
     snd (github_utils.list_user_repositories token username n) = n /\
     snd (github_utils.search_code_in_repository repo_name v token n) = n /\
     snd (github_utils.list_repository_issues repo_name v token n) = n /\
     snd (github_utils.list_repository_commits repo_name v token n) = n /\
     snd (github_utils.get_repository_content repo_name v token n) = n).
Proof.
  split; [repeat apply conj; apply with_client_closes |].
  unfold github_utils.list_user_repositories,
    github_utils.search_code_in_repository, github_utils.list_repository_issues,
    github_utils.list_repository_commits, github_utils.get_repository_content.
  rewrite !with_client_network. split.
  - intros t -> Ht. by rewrite (proj2 (String.eqb_neq t "") Ht).
  - by intros [-> | ->].
Qed.

(** The theorem at work: a fetch that returns and a fetch that raises both
    leave one more client opened and closed; the empty token and the
    missing token leave the network as it was. *)
Lemma github_utils_close_their_client_witness :
  snd (github_utils.list_repository_issues (api := SampleGithub.api)
         (env := SampleGithub.no_env) "octocat/hello" (PyStr "all")
         (Some "ghp_token") SampleGithub.quiet) =
    {| clients_opened := 4; clients_closed := 4 |} /\
  snd (github_utils.get_repository_content (api := SampleGithub.api)
         (env := SampleGithub.no_env) "octocat/hello" (PyStr "README.md")
         (Some "revoked") SampleGithub.quiet) =
    {| clients_opened := 4; clients_closed := 4 |} /\
  snd (github_utils.list_user_repositories (api := SampleGithub.api)
         (env := SampleGithub.no_env) (Some "") None SampleGithub.quiet) =
    SampleGithub.quiet /\
  snd (github_utils.list_repository_commits (api := SampleGithub.api)
         (env := SampleGithub.no_env) "octocat/hello" PyNone None
         SampleGithub.quiet) = SampleGithub.quiet.
Proof.
  split; [| split; [| split]].
  - apply (proj1 (proj2 (github_utils_close_their_client SampleGithub.api
                           SampleGithub.no_env (Some "ghp_token") None
                           "octocat/hello" (PyStr "all") SampleGithub.quiet))
                 "ghp_token" eq_refl ltac:(discriminate)).
  - apply (proj1 (proj2 (github_utils_close_their_client SampleGithub.api
                           SampleGithub.no_env (Some "revoked") None
                           "octocat/hello" (PyStr "README.md")
                           SampleGithub.quiet))
                 "revoked" eq_refl ltac:(discriminate)).
  - apply (proj2 (proj2 (github_utils_close_their_client SampleGithub.api
                           SampleGithub.no_env (Some "") None
                           "octocat/hello" PyNone SampleGithub.quiet))).
    right. reflexivity.
  - apply (proj2 (proj2 (github_utils_close_their_client SampleGithub.api
                           SampleGithub.no_env None None
                           "octocat/hello" PyNone SampleGithub.quiet))).
    left. reflexivity.
Defined.

(** A token that is passed and is not empty is the one used; without one
    the token of the environment is used.  With the empty token, which is
    what the page holds until one is entered, the call raises
    [AssertionError] and makes no request; with no token at all it raises
    [ValueError].  An empty user name lists the repositories of the
    authenticated user, like no user name. *)
Theorem github_utils_token_resolution (api : PyGithub) (env : Environ)
    (token : option string) (repo_name : string) (state : PyVal) (n : Network) :
  (forall t, resolved_token token = Some t -> t <> "" ->
     fst (github_utils.list_repository_issues repo_name state token n) =
       api_issues t repo_name state /\
     fst (github_utils.list_user_repositories token (Some "") n) =
       api_user_repos t None /\
     fst (github_utils.list_repository_commits repo_name PyNone token n) =
       api_commits t repo_name None) /\
  (resolved_token token = Some "" ->
   fst (github_utils.list_user_repositories token None n) =
     Raise (AssertionError "") /\
   fst (github_utils.search_code_in_repository repo_name state token n) =
     Raise (AssertionError "") /\
   fst (github_utils.list_repository_issues repo_name state token n) =
     Raise (AssertionError "") /\
   fst (github_utils.list_repository_commits repo_name PyNone token n) =
     Raise (AssertionError "") /\
   fst (github_utils.get_repository_content repo_name state token n) =
     Raise (AssertionError "")) /\
  (resolved_token token = None ->
   exists msg,
     fst (github_utils.list_repository_issues repo_name state token n) =
       Raise (ValueError msg)) /\
  (forall t, resolved_token (Some t) = Some t).
Proof.
  unfold github_utils.list_user_repositories,
    github_utils.search_code_in_repository, github_utils.list_repository_issues,
    github_utils.list_repository_commits, github_utils.get_repository_content.
  rewrite !with_client_result.
  split; [| split; [| split; [| done]]].
  - intros t -> Ht. by rewrite (proj2 (String.eqb_neq t "") Ht).
  - by intros ->.
  - intros ->. eauto.
Qed.

Lemma github_utils_token_resolution_witness :
  (fst (github_utils.list_repository_issues (api := SampleGithub.api)
          (env := SampleGithub.env_with_token) "octocat/hello" (PyStr "all")
          (Some "revoked") SampleGithub.quiet) =
     api_issues (PyGithub := SampleGithub.api) "revoked" "octocat/hello" (PyStr "all") /\
   fst (github_utils.list_user_repositories (api := SampleGithub.api)
          (env := SampleGithub.env_with_token) (Some "revoked") (Some "")
          SampleGithub.quiet) =
     api_user_repos (PyGithub := SampleGithub.api) "revoked" None /\
   fst (github_utils.list_repository_commits (api := SampleGithub.api)
          (env := SampleGithub.env_with_token) "octocat/hello" PyNone
          (Some "revoked") SampleGithub.quiet) =
     api_commits (PyGithub := SampleGithub.api) "revoked" "octocat/hello" None) /\
  fst (github_utils.list_repository_issues (api := SampleGithub.api)
         (env := SampleGithub.env_with_token) "octocat/hello" (PyStr "all")
         (Some "") SampleGithub.quiet) = Raise (AssertionError "") /\
  fst (github_utils.list_repository_issues (api := SampleGithub.api)
         (env := SampleGithub.env_with_empty_token) "octocat/hello" (PyStr "all")
         None SampleGithub.quiet) = Raise (AssertionError "") /\
  exists msg,
    fst (github_utils.list_repository_issues (api := SampleGithub.api)
           (env := SampleGithub.no_env) "octocat/hello" (PyStr "all") None
           SampleGithub.quiet) = Raise (ValueError msg).
Proof.
  split; [| split; [| split]].
  - apply (proj1 (github_utils_token_resolution SampleGithub.api
                    SampleGithub.env_with_token (Some "revoked") "octocat/hello"
                    (PyStr "all") SampleGithub.quiet) "revoked").
    + reflexivity.
    + discriminate.
  - apply (proj1 (proj2 (github_utils_token_resolution SampleGithub.api
                           SampleGithub.env_with_token (Some "") "octocat/hello"
                           (PyStr "all") SampleGithub.quiet))).
    reflexivity.
  - apply (proj1 (proj2 (github_utils_token_resolution SampleGithub.api
                           SampleGithub.env_with_empty_token None "octocat/hello"
                           (PyStr "all") SampleGithub.quiet))).
    reflexivity.
  - apply (proj1 (proj2 (proj2 (github_utils_token_resolution SampleGithub.api
                           SampleGithub.no_env None "octocat/hello"
                           (PyStr "all") SampleGithub.quiet)))).
    reflexivity.
Defined.

(** The content tools on top of the data-access layer, for a session whose
    token is not empty.  A directory listing comes back with one entry for
    each item the library lists, in order and under the same names, and is
    refused by the file tool.  A file encoded in base64 comes back with its
    decoded text; when its bytes do not decode as UTF-8 the file tool raises
    the decoding error; with any other encoding the content is [None].
    With the empty token both tools raise [AssertionError]. *)
Theorem content_tools_over_github_utils (api : PyGithub) (env : Environ)
    (ctx : GitHubDependencies) (path : PyVal) :
  let gh := github_utils_collaborator api env in
  (token ctx <> "" ->
   (forall l,
       api_contents (token ctx) (repo_name ctx) path = Ok (RawListing l) ->
       exists entries,
         list_directory_contents (H := gh) ctx path = Ok entries /\
         List.map entry_name entries = List.map raw_name l /\
         List.map entry_path entries = List.map raw_path l /\
         exists msg, get_file_content (H := gh) ctx path = Raise (ValueError msg)) /\
   (forall c,
       api_contents (token ctx) (repo_name ctx) path = Ok (RawSingle c) ->
       raw_type c = "file" ->
       (forall text, raw_encoding c = Some "base64" -> raw_text c = Ok text ->
          exists d, get_file_content (H := gh) ctx path = Ok d /\
                    file_content d = Some text /\ file_path d = raw_path c) /\
       (forall e, raw_encoding c = Some "base64" -> raw_text c = Raise e ->
          get_file_content (H := gh) ctx path = Raise e) /\
       (raw_encoding c <> Some "base64" ->
          exists d, get_file_content (H := gh) ctx path = Ok d /\
                    file_content d = None))) /\
  (token ctx = "" ->
   list_directory_contents (H := gh) ctx path = Raise (AssertionError "") /\
   get_file_content (H := gh) ctx path = Raise (AssertionError "")).
Proof.
  intros gh. subst gh. split; [intros Htoken; split |].
  - intros l Hl. unfold list_directory_contents, get_file_content.
    rewrite collaborator_content, (proj2 (String.eqb_neq _ _) Htoken), Hl. cbn.
    eexists. split; [reflexivity |].
    rewrite !map_map. cbn. split; [done |]. split; [done | eauto].
  - intros c Hc Htype. unfold get_file_content.
    rewrite collaborator_content, (proj2 (String.eqb_neq _ _) Htoken), Hc. cbn.
    unfold github_utils.file_dict. split; [| split].
    + intros text Henc Htext. rewrite Henc, Htext. cbn. rewrite Htype. cbn.
      eexists. split; [reflexivity | done].
    + intros e Henc Htext. rewrite Henc, Htext. done.
    + intros Henc. destruct (raw_encoding c) as [enc |] eqn:Hencoding.
      * destruct (String.eqb_spec enc "base64") as [-> | Hne]; [done |].
        cbn. rewrite Htype. cbn. eexists. split; [reflexivity | done].
      * cbn. rewrite Htype. cbn. eexists. split; [reflexivity | done].
  - intros Htoken. unfold list_directory_contents, get_file_content.
    by rewrite collaborator_content, Htoken.
Qed.

Lemma content_tools_over_github_utils_witness :
  let gh := github_utils_collaborator SampleGithub.api SampleGithub.no_env in
  (exists entries,
      list_directory_contents (H := gh) Sample.deps (PyStr "") = Ok entries /\
      List.map entry_name entries = ["README.md"; "logo.png"; "data.csv"] /\
      List.map entry_path entries = ["README.md"; "logo.png"; "data.csv"] /\
      exists msg,
        get_file_content (H := gh) Sample.deps (PyStr "") = Raise (ValueError msg)) /\
  (exists d, get_file_content (H := gh) Sample.deps (PyStr "README.md") = Ok d /\
             file_content d = Some "Hello world." /\ file_path d = "README.md") /\
  get_file_content (H := gh) Sample.deps (PyStr "logo.png") =
    Raise (ValueError "'utf-8' codec can't decode byte 0x89") /\
  (exists d, get_file_content (H := gh) Sample.deps (PyStr "data.csv") = Ok d /\
             file_content d = None) /\
  get_file_content (H := gh) {| token := ""; repo_name := "octocat/hello" |}
    (PyStr "README.md") = Raise (AssertionError "").
Proof.
  assert (token Sample.deps <> "") as Htoken by discriminate.
  intros gh. split; [| split; [| split; [| split]]].
  - apply (proj1 (proj1 (content_tools_over_github_utils SampleGithub.api
                           SampleGithub.no_env Sample.deps (PyStr "")) Htoken)
                 [SampleGithub.text_file; SampleGithub.image_file;
                  SampleGithub.large_file]).
    reflexivity.
  - apply (proj1 (proj2 (proj1 (content_tools_over_github_utils SampleGithub.api
                           SampleGithub.no_env Sample.deps (PyStr "README.md"))
                               Htoken)
                        SampleGithub.text_file eq_refl eq_refl)
                 "Hello world."); reflexivity.
  - apply (proj1 (proj2 (proj2 (proj1 (content_tools_over_github_utils
                                  SampleGithub.api
                                  SampleGithub.no_env Sample.deps
                                  (PyStr "logo.png")) Htoken)
                               SampleGithub.image_file eq_refl eq_refl)));
      reflexivity.
  - apply (proj2 (proj2 (proj2 (proj1 (content_tools_over_github_utils
                                  SampleGithub.api
                                  SampleGithub.no_env Sample.deps
                                  (PyStr "data.csv")) Htoken)
                               SampleGithub.large_file eq_refl eq_refl))).
    discriminate.
  - apply (proj2 (content_tools_over_github_utils SampleGithub.api
                    SampleGithub.no_env
                    {| token := ""; repo_name := "octocat/hello" |}
                    (PyStr "README.md"))).
    reflexivity.
Defined.

(** ** Context composer and details tool together *)

(** The composer and the details tool look the repository up in the same
    way: for an identifier of the form owner/name the instruction is the
    enriched one, built from the very entry the details tool returns, exactly
    when that tool succeeds, and the minimal one when it raises. *)
Theorem repository_context_follows_details (gh : GithubUtils) (ck : Clock)
    (ctx : GitHubDependencies) :
  PyString.count "/" (repo_name ctx) = 1 ->
  repository_context ctx =
  Ok (match get_repo_details ctx with
      | Ok repo_info => enriched_instruction (repo_name ctx) repo_info
      | Raise _ => minimal_instruction (repo_name ctx)
      end).
Proof.
  intros Hone.
  destruct (split_one_separator _ Hone) as (owner & name & Hsplit & _).
  unfold repository_context, get_repo_details. rewrite Hsplit. cbn.
  destruct (list_user_repositories (token ctx) owner) as [repos | e]; cbn;
    [| done].
  by destruct (List.find _ repos).
Qed.

Lemma repository_context_follows_details_witness :
  repository_context (H := Sample.github_listing) (H0 := Sample.clock) Sample.deps =
  Ok (match get_repo_details (H := Sample.github_listing) Sample.deps with
      | Ok repo_info =>
          enriched_instruction (H := Sample.clock) "octocat/hello" repo_info
      | Raise _ => minimal_instruction "octocat/hello"
      end).
Proof.
  apply (repository_context_follows_details Sample.github_listing Sample.clock
           Sample.deps).
  reflexivity.
Defined.

(** ** Constants *)

(** [confidence_threshold] is below 7/10 by less than half the spacing of
    the doubles around it, 2^-54: it is the double written [0.7]. *)
Example confidence_threshold_is_the_double :
  Qgt_bool (QArith_base.Qmake 7 10) confidence_threshold = true /\
  QArith_base.Qle_bool
    (QArith_base.Qminus (QArith_base.Qmake 7 10) confidence_threshold)
    (QArith_base.Qmake 1 (2 ^ 54)) = true.
Proof. split; reflexivity. Qed.

Example confidence_text_shown :
  confidence_text (fmt := SampleSession.float_format) (QArith_base.Qmake 9 10) =
    nl ++ nl ++ "*Confidence: 0.90*" /\
  confidence_text (fmt := SampleSession.float_format) confidence_threshold = "" /\
  confidence_text (fmt := SampleSession.float_format) (QArith_base.Qmake 1 2) = "".
Proof. repeat split. Qed.

Example full_response_example :
  full_response_text (fmt := SampleSession.float_format)
    {| answer := "It prints a greeting."; sources := ["README.md"];
       confidence := QArith_base.Qmake 9 10 |} =
  "It prints a greeting." ++ nl ++ nl ++ "**Sources:**" ++ nl ++
  "1. README.md" ++ nl ++ nl ++ nl ++ "*Confidence: 0.90*".
Proof. reflexivity. Qed.
